(** * vk-io: the resource resolver

    A shallow embedding of [packages/vk-io/src/snippets/resource-resolver.ts].

    JavaScript strings are modelled as [string], a sequence of code units
    below 256.  JavaScript numbers that hold identifiers are modelled as [Z];
    the model is that of the safe integers (magnitude below 2^53), on which
    the decimal conversions [String(n)] and [Number(s)] are exact: a
    statement that converts a number it quantifies over carries the
    hypothesis [safe_integer].  A rejected promise is modelled as a thrown
    [exception].  The remote call [vk.api.utils.resolveScreenName] and
    Node's [URL] class are parameters of the resolver, as are the three
    patterns imported from [utils/helpers]. *)

From Stdlib Require Import ZArith Bool List Ascii String Lia.
From Stdlib Require DecimalString DecimalZ DecimalPos.
Import ListNotations.

Local Open Scope string_scope.
Local Open Scope Z_scope.

(** ** Characters and character classes *)

Definition code (c : ascii) : N := N_of_ascii c.

(** [\d] *)
Definition is_digit (c : ascii) : bool :=
  (48 <=? code c)%N && (code c <=? 57)%N.

(** [[a-z]] under the [i] flag *)
Definition is_alpha (c : ascii) : bool :=
  ((65 <=? code c)%N && (code c <=? 90)%N) ||
  ((97 <=? code c)%N && (code c <=? 122)%N).

(** White space and line terminators removed by [String.prototype.trim]
    (those below 256: TAB, LF, VT, FF, CR, SP, NBSP). *)
Definition is_white_space (c : ascii) : bool :=
  ((9 <=? code c)%N && (code c <=? 13)%N) ||
  (code c =? 32)%N || (code c =? 160)%N.

(** One code unit of [String.prototype.toLowerCase] (Latin-1 range). *)
Definition lower_char (c : ascii) : ascii :=
  let n := code c in
  if ((65 <=? n)%N && (n <=? 90)%N) ||
     ((192 <=? n)%N && (n <=? 222)%N && negb (n =? 215)%N)
  then ascii_of_N (n + 32) else c.

(** Equality of two code units under the [i] flag. *)
Definition eqb_ci (a b : ascii) : bool :=
  Ascii.eqb a b ||
  (is_alpha a && is_alpha b && Ascii.eqb (lower_char a) (lower_char b)).

(** ** Strings *)

Fixpoint toLowerCase (s : string) : string :=
  match s with
  | "" => ""
  | String c r => String (lower_char c) (toLowerCase r)
  end.

Fixpoint forall_chars (p : ascii -> bool) (s : string) : bool :=
  match s with
  | "" => true
  | String c r => p c && forall_chars p r
  end.

Fixpoint exists_char (p : ascii -> bool) (s : string) : bool :=
  match s with
  | "" => false
  | String c r => p c || exists_char p r
  end.

(** Longest prefix whose characters satisfy [p], and what follows it: the
    greedy match of [[class]*]. *)
Fixpoint span (p : ascii -> bool) (s : string) : string * string :=
  match s with
  | "" => ("", "")
  | String c r =>
      if p c then let (a, b) := span p r in (String c a, b) else ("", s)
  end.

Definition is_empty (s : string) : bool :=
  match s with "" => true | _ => false end.

(** [s.substring(1)] *)
Definition substring1 (s : string) : string :=
  match s with "" => "" | String _ r => r end.

Fixpoint trimStart (s : string) : string :=
  match s with
  | "" => ""
  | String c r => if is_white_space c then trimStart r else s
  end.

Fixpoint trimEnd (s : string) : string :=
  match s with
  | "" => ""
  | String c r =>
      let t := trimEnd r in
      if is_white_space c && is_empty t then "" else String c t
  end.

(** [s.trim()] *)
Definition trim (s : string) : string := trimEnd (trimStart s).

(** Match of the literal [p] at the start of [s] under the [i] flag; the
    result is the text after the match. *)
Fixpoint prefix_ci (p s : string) : option string :=
  match p, s with
  | "", _ => Some s
  | String a p', String b s' => if eqb_ci a b then prefix_ci p' s' else None
  | String _ _, "" => None
  end.

(** Match of the single character [x] at the start of [s]. *)
Definition literal (x : ascii) (s : string) : option string :=
  match s with
  | String c r => if Ascii.eqb c x then Some r else None
  | "" => None
  end.

(** A pattern without the [g] and [y] flags, as the function that takes a
    text to the capture groups of its first match ([text.match(re)]), or to
    [None] when there is none. *)
Definition RegExp (groups : Type) : Type := string -> option groups.

(** The first suffix of [s] (from the left) on which [f] succeeds: an
    unanchored pattern is tried at every start position in turn. *)
Fixpoint leftmost {A : Type} (f : string -> option A) (s : string) : option A :=
  match f s with
  | Some m => Some m
  | None => match s with "" => None | String _ r => leftmost f r end
  end.

(** The groups read from a match of an owner-qualified pattern (type,
    owner, item) and of the plain-ID pattern (prefix, identifier). *)
Definition OwnerGroups : Type := string * string * string.
Definition PlainGroups : Type := string * string.

(** [re.test(s)] *)
Definition test {A : Type} (re : RegExp A) (s : string) : bool :=
  match re s with Some _ => true | None => false end.

(** ** Numbers *)

(** [Number.MAX_SAFE_INTEGER], 2^53 - 1. *)
Definition MAX_SAFE_INTEGER : Z := 9007199254740991.

(** [Number.isSafeInteger(n)] for an integer [n]. *)
Definition safe_integer (n : Z) : Prop := Z.abs n <= MAX_SAFE_INTEGER.

(** [Number(s)] on the decimal literals captured by [\d+] and [-?\d+], as
    long as the literal reads as a safe integer (beyond, [Number] rounds to
    the nearest double). *)
Definition Number (s : string) : Z :=
  match DecimalString.NilZero.int_of_string s with
  | Some d => Z.of_int d
  | None => 0
  end.

(** [String(n)] for a number that holds the safe integer [n]: its decimal
    digits (beyond the safe integers [String] prints the shortest digits
    that read back as the double, in exponent notation from 10^21). *)
Definition Number_toString (n : Z) : string :=
  DecimalString.NilZero.string_of_int (Z.to_int n).

(** ** The patterns of the module *)

(** [numberRe = /^-?\d+$/] *)
Definition digits1 (s : string) : bool :=
  negb (is_empty s) && forall_chars is_digit s.

Definition numberRe (s : string) : bool :=
  match s with
  | String "-" r => digits1 r
  | _ => digits1 s
  end.

(** [hasProtocolRe = /https?:\/\//i] *)
Definition hasProtocol_at (s : string) : option unit :=
  match prefix_ci "http" s with
  | Some r =>
      match prefix_ci "s://" r with
      | Some _ => Some tt
      | None =>
          match prefix_ci "://" r with Some _ => Some tt | None => None end
      end
  | None => None
  end.

Definition hasProtocolRe : RegExp unit := leftmost hasProtocol_at.

(** [isVKUrl = /^(?:https?:\/\/)?(?:m\.)?vk\.com/i].  Each optional group
    contributes the remainders it can leave, the greedy one first. *)
Definition after_scheme (s : string) : list string :=
  match prefix_ci "http" s with
  | Some r =>
      (match prefix_ci "s://" r with Some t => [t] | None => [] end) ++
      (match prefix_ci "://" r with Some t => [t] | None => [] end)
  | None => []
  end ++ [s].

Definition after_mobile (s : string) : list string :=
  match prefix_ci "m." s with Some t => [t] | None => [] end ++ [s].

Definition isVKUrl (s : string) : bool :=
  existsb
    (fun s1 =>
       existsb (fun s2 => test (prefix_ci "vk.com") s2) (after_mobile s1))
    (after_scheme s).

(** [isUserMentionRe = /\*|@/] *)
Definition is_sigil (c : ascii) : bool :=
  Ascii.eqb c "*" || Ascii.eqb c "@".

Definition isUserMentionRe (s : string) : bool := exists_char is_sigil s.

(** [systemMentionRe = /\[([^|]+)|([^|\]]+)\]/].  The top-level [|] splits
    the pattern in two alternatives: [\[([^|]+)] and [([^|\]]+)\]].  A match
    carries its two capture groups, the one of the alternative not taken
    being undefined. *)
Definition not_pipe (c : ascii) : bool := negb (Ascii.eqb c "|").

Definition not_pipe_bracket (c : ascii) : bool :=
  negb (Ascii.eqb c "|") && negb (Ascii.eqb c "]").

Definition systemMention_alt1 (s : string) : option string :=
  match s with
  | String "[" r =>
      let (g, _) := span not_pipe r in
      if is_empty g then None else Some g
  | _ => None
  end.

Definition systemMention_alt2 (s : string) : option string :=
  let (g, r) := span not_pipe_bracket s in
  if is_empty g then None
  else match r with String "]" _ => Some g | _ => None end.

Definition systemMention_at (s : string)
  : option (option string * option string) :=
  match systemMention_alt1 s with
  | Some g => Some (Some g, None)
  | None =>
      match systemMention_alt2 s with
      | Some g => Some (None, Some g)
      | None => None
      end
  end.

Definition systemMentionRe : RegExp (option string * option string) :=
  leftmost systemMention_at.

(** [removeSearchParam = /(\?|&)[^=]+=/] and [s.replace(removeSearchParam, '')]:
    the first match is removed. *)
Definition not_equals (c : ascii) : bool := negb (Ascii.eqb c "=").

Definition removeSearchParam_at (s : string) : option string :=
  match s with
  | String c r =>
      if Ascii.eqb c "?" || Ascii.eqb c "&" then
        let (g, t) := span not_equals r in
        if is_empty g then None
        else match t with String "=" rest => Some rest | _ => None end
      else None
  | "" => None
  end.

Fixpoint replace_removeSearchParam (s : string) : string :=
  match removeSearchParam_at s with
  | Some rest => rest
  | None =>
      match s with
      | "" => ""
      | String c r => String c (replace_removeSearchParam r)
      end
  end.

(** ** Data model *)

(** What the [type] member of a result holds at run time: a string, or,
    when the alias table was indexed with the name of a member that it
    inherits from [Object.prototype], that member (a function or an object,
    no string). *)
Inductive TypeValue : Type :=
| TypeString (s : string)
| TypeInherited (name : string).

Coercion TypeString : string >-> TypeValue.

(** [IResolvedResource]; an absent [ownerId] is [None]. *)
Record IResolvedResource : Type := {
  id : Z;
  ownerId : option Z;
  type : TypeValue
}.

Inductive ResourceErrorCode : Type :=
| INVALID_URL
| INVALID_RESOURCE
| RESOURCE_NOT_FOUND.

(** What a call can throw: a [ResourceError] with its code and message, or
    a [TypeError] of the runtime ([new URL] on an unparsable text, a
    property read on [undefined] or [null]). *)
Inductive exception : Type :=
| ResourceError (code : ResourceErrorCode) (message : string)
| TypeError.

Inductive completion (A : Type) : Type :=
| Return (a : A)
| Throw (e : exception).

Arguments Return {A} a.
Arguments Throw {A} e.

Definition bind {A B : Type} (m : completion A) (k : A -> completion B)
  : completion B :=
  match m with
  | Return a => k a
  | Throw e => Throw e
  end.

Notation "x <- m ;; k" := (bind m (fun x => k))
  (at level 61, m at next level, right associativity).

(** The argument of [resolve]: [string | number], the number holding a
    safe integer. *)
Inductive RawResource : Type :=
| RawNumber (n : Z)
| RawString (s : string).

(** [!rawResource] *)
Definition falsy (raw : RawResource) : bool :=
  match raw with
  | RawNumber n => n =? 0
  | RawString s => is_empty s
  end.

(** [String(rawResource)] *)
Definition String_of_raw (raw : RawResource) : string :=
  match raw with
  | RawNumber n => Number_toString n
  | RawString s => s
  end.

(** A value of static type [string] that may be [undefined] at run time
    ([None]); [ToString] is the coercion [RegExp.prototype.test] applies to
    its argument. *)
Definition ToString (v : option string) : string :=
  match v with Some s => s | None => "undefined" end.

(** The answer of [utils.resolveScreenName]: an (empty) array, or an object
    with [type] and [object_id]. *)
Inductive ScreenNameResponse : Type :=
| ResponseArray
| ResponseObject (type : string) (object_id : Z).

(** The collaborator [vk.api.utils.resolveScreenName({ screen_name })]. *)
Definition ScreenNameLookup : Type := option string -> ScreenNameResponse.

(** The two fields read from [new URL(...)]. *)
Record URL : Type := {
  pathname : string;
  search : string
}.

(** [new URL(text)]; [None] when the constructor throws its [TypeError]. *)
Definition URLConstructor : Type := string -> option URL.

(** The members of [ResourceType] that the resolver uses; the enumeration
    is in [utils/constants], which is not part of the sources. *)
Module ResourceType.
(** Modelled from the spec: [ResourceType.USER], the canonical tag [user]. *)
Definition USER : string := "user".
(** Modelled from the spec: [ResourceType.GROUP], the canonical tag
    [group]. *)
Definition GROUP : string := "group".
(** Modelled from the spec: [ResourceType.APPLICATION], the canonical tag
    [application]. *)
Definition APPLICATION : string := "application".
End ResourceType.

(** The names of the members of [Object.prototype], which every object
    literal inherits. *)
Definition Object_prototype_keys : list string :=
  [ "constructor"; "__defineGetter__"; "__defineSetter__"; "hasOwnProperty";
    "__lookupGetter__"; "__lookupSetter__"; "isPrototypeOf";
    "propertyIsEnumerable"; "toString"; "valueOf"; "__proto__";
    "toLocaleString" ].

(** [enumResourceTypes[key]]: the object literal has four members of its
    own and inherits those of [Object.prototype]; [None] is [undefined]. *)
Definition enumResourceTypes (key : string) : option TypeValue :=
  if String.eqb key "id" then Some (TypeString ResourceType.USER)
  else if String.eqb key "club" then Some (TypeString ResourceType.GROUP)
  else if String.eqb key "public" then Some (TypeString ResourceType.GROUP)
  else if String.eqb key "app" then
    Some (TypeString ResourceType.APPLICATION)
  else if existsb (String.eqb key) Object_prototype_keys then
    Some (TypeInherited key)
  else None.

(** ** The resolver *)

Section Resolver.

(** The patterns imported from [utils/helpers], with the groups the
    resolver reads from a match. *)
Variables parseAttachmentRe parseOwnerResourceRe
  : RegExp OwnerGroups.
Variable parseResourceRe : RegExp PlainGroups.

Variable api_resolveScreenName : ScreenNameLookup.

Variable new_URL : URLConstructor.

(** [resolveOwnerResource(resource, pattern)] *)
Definition resolveOwnerResource (resource : option string)
    (pattern : RegExp OwnerGroups)
  : completion IResolvedResource :=
  match resource with
  | None => Throw TypeError
  | Some r =>
      match pattern r with
      | None => Throw TypeError
      | Some (type, ownerId, id) =>
          Return {| id := Number id;
                    ownerId := Some (Number ownerId);
                    type := replace_removeSearchParam (toLowerCase type) |}
      end
  end.

(** [resolveScreenName(resource)] *)
Definition resolveScreenName (resource : option string)
  : completion IResolvedResource :=
  if test parseAttachmentRe (ToString resource) then
    resolveOwnerResource resource parseAttachmentRe
  else if test parseOwnerResourceRe (ToString resource) then
    resolveOwnerResource resource parseOwnerResourceRe
  else if test parseResourceRe (ToString resource) then
    match resource with
    | None => Throw TypeError
    | Some r =>
        match parseResourceRe r with
        | None => Throw TypeError
        | Some (typeResource, id) =>
            let type := toLowerCase typeResource in
            let type :=
              match enumResourceTypes type with
              | Some t => t
              | None => TypeString type
              end in
            Return {| id := Number id; ownerId := None; type := type |}
        end
    end
  else
    match api_resolveScreenName resource with
    | ResponseArray =>
        Throw (ResourceError RESOURCE_NOT_FOUND "Resource not found")
    | ResponseObject type id =>
        if String.eqb type "page" then
          Return {| id := id; ownerId := None; type := ResourceType.GROUP |}
        else
          Return {| id := id; ownerId := None; type := type |}
    end.

(** [resolveNumber(resource)] *)
Definition resolveNumber (resource : Z) : completion IResolvedResource :=
  let isGroup := resource <? 0 in
  let type := if isGroup then "club" else "id" in
  resolveScreenName
    (Some (type ++ Number_toString (if isGroup then - resource else resource))).

(** [resolveMention(resource)] *)
Definition resolveMention (resource : string) : completion IResolvedResource :=
  if isUserMentionRe resource then
    resolveScreenName (Some (substring1 resource))
  else
    match systemMentionRe resource with
    | None => Throw TypeError
    | Some (mentionResource, _) => resolveScreenName mentionResource
    end.

(** [resolveUrl(rawResourceUrl)] *)
Definition resolveUrl (rawResourceUrl : string)
  : completion IResolvedResource :=
  let resourceUrl :=
    if negb (test hasProtocolRe rawResourceUrl)
    then "https://" ++ rawResourceUrl
    else rawResourceUrl in
  url <- match new_URL resourceUrl with
         | Some u => Return u
         | None => Throw TypeError
         end ;;
  if String.eqb (pathname url) "/" then
    Throw (ResourceError INVALID_URL "URL should contain path")
  else if test parseAttachmentRe (search url) then
    resolveOwnerResource (Some (search url)) parseAttachmentRe
  else if test parseOwnerResourceRe (search url) then
    resolveOwnerResource (Some (search url)) parseOwnerResourceRe
  else
    resolveScreenName (Some (substring1 (pathname url))).

(** [resolve(rawResource)] *)
Definition resolve (rawResource : RawResource) : completion IResolvedResource :=
  if falsy rawResource then
    Throw (ResourceError INVALID_RESOURCE "Resource is required")
  else
    let resource := trim (String_of_raw rawResource) in
    if numberRe resource then
      resolveNumber (Number resource)
    else
      let isMention :=
        isUserMentionRe resource || test systemMentionRe resource in
      if isMention then resolveMention resource
      else if isVKUrl resource then resolveUrl resource
      else resolveScreenName (Some resource).

End Resolver.

(** ** The imported patterns *)

(** [parseAttachmentRe], [parseOwnerResourceRe] and [parseResourceRe] are
    defined in [utils/helpers], which is not part of the sources; the three
    patterns below follow the description the spec gives of them. *)
Module Helpers.

(** [<letters><-?digits>_<digits>] at the start of the text. *)
Definition owner_tagged_at (s : string) : option (string * string * string) :=
  let (tag, r1) := span is_alpha s in
  if is_empty tag then None
  else
    let (sign, r2) :=
      match literal "-" r1 with Some r => ("-", r) | None => ("", r1) end in
    let (owner, r3) := span is_digit r2 in
    if is_empty owner then None
    else
      match literal "_" r3 with
      | Some r4 =>
          let (item, _) := span is_digit r4 in
          if is_empty item then None
          else Some (tag, sign ++ owner, item)
      | None => None
      end.

(** Modelled from the spec: the pattern [parseAttachmentRe] of
    [utils/helpers]; the attachment grammar "recognizes a substring of shape
    [<typeTag><signedOwnerId>_<id>]", the tag being alphabetic. *)
Definition parseAttachmentRe : RegExp OwnerGroups :=
  leftmost owner_tagged_at.

(** [<letters>=] followed by the owner-tagged shape. *)
Definition owner_embed_at (s : string) : option (string * string * string) :=
  let (key, r) := span is_alpha s in
  if is_empty key then None
  else
    match literal "=" r with
    | Some r' => owner_tagged_at r'
    | None => None
    end.

(** Modelled from the spec: the pattern [parseOwnerResourceRe] of
    [utils/helpers]; the owner-embed grammar has the "same shape as
    attachment", in an embed query parameter such as [w=wall-123_456]. *)
Definition parseOwnerResourceRe : RegExp OwnerGroups :=
  leftmost owner_embed_at.

(** Modelled from the spec: the pattern [parseResourceRe] of
    [utils/helpers]; the plain-ID grammar "recognizes
    [<prefix><nonNegativeId>] with no owner component": the whole text is a
    run of letters and a run of digits. *)
Definition parseResourceRe : RegExp PlainGroups := fun s =>
  let (prefix, r) := span is_alpha s in
  if is_empty prefix then None
  else if digits1 r then Some (prefix, r) else None.

End Helpers.

(** The resolver over the patterns above. *)
Definition resolve_with_helpers :=
  resolve Helpers.parseAttachmentRe Helpers.parseOwnerResourceRe
          Helpers.parseResourceRe.

Definition resolveScreenName_with_helpers :=
  resolveScreenName Helpers.parseAttachmentRe Helpers.parseOwnerResourceRe
                    Helpers.parseResourceRe.

(** ** A reference URL parser *)

(** Node's [URL] is outside the repository.  [WhatwgURL.parse] follows the
    WHATWG URL parser on texts [scheme://host[:port][/path][?query][#fragment]]
    written in URL-safe ASCII without dot segments: the scheme is a letter
    followed by letters, digits, [+], [-] or [.] and a colon (a text without
    one is rejected, there being no base URL); for [http] and [https] the
    slashes after the colon are skipped, the host may not be empty and a
    port is a run of digits that reads as at most 65535; an empty path reads
    as [/]; an empty query reads as the empty [search].  Under another
    scheme the path is the text as written, after the authority when the
    colon is followed by two slashes. *)
Module WhatwgURL.

Definition is_scheme_char (c : ascii) : bool :=
  is_alpha c || is_digit c ||
  Ascii.eqb c "+" || Ascii.eqb c "-" || Ascii.eqb c ".".

Definition is_slash (c : ascii) : bool :=
  Ascii.eqb c "/" || Ascii.eqb c "\".

Definition not_authority_end (c : ascii) : bool :=
  negb (is_slash c || Ascii.eqb c "?" || Ascii.eqb c "#").

Definition not_path_end (c : ascii) : bool :=
  negb (Ascii.eqb c "?" || Ascii.eqb c "#").

Definition not_colon (c : ascii) : bool := negb (Ascii.eqb c ":").

Definition not_hash (c : ascii) : bool := negb (Ascii.eqb c "#").

(** The text up to the colon that ends a scheme, and the text after it. *)
Definition scheme_of (s : string) : option (string * string) :=
  match s with
  | String c _ =>
      if is_alpha c then
        let (name, r) := span is_scheme_char s in
        match literal ":" r with
        | Some rest => Some (toLowerCase name, rest)
        | None => None
        end
      else None
  | "" => None
  end.

Definition valid_authority (a : string) : bool :=
  let (host, r) := span not_colon a in
  negb (is_empty host) &&
  match literal ":" r with
  | Some port => forall_chars is_digit port && (Number port <=? 65535)
  | None => true
  end.

(** Path and query of the text after the authority; [root] is what an
    empty path reads as. *)
Definition path_and_query (root s : string) : URL :=
  let (path, r) := span not_path_end s in
  let query :=
    match literal "?" r with
    | Some q => fst (span not_hash q)
    | None => ""
    end in
  {| pathname := if is_empty path then root else path;
     search := if is_empty query then "" else "?" ++ query |}.

Definition parse : URLConstructor := fun s =>
  match scheme_of s with
  | None => None
  | Some (scheme, rest) =>
      if String.eqb scheme "http" || String.eqb scheme "https" then
        let (authority, r) :=
          span not_authority_end (snd (span is_slash rest)) in
        if valid_authority authority then Some (path_and_query "/" r)
        else None
      else
        match prefix_ci "//" rest with
        | Some r0 =>
            Some (path_and_query "" (snd (span not_authority_end r0)))
        | None => Some (path_and_query "" rest)
        end
  end.

End WhatwgURL.

(** ** Vocabulary of the statements *)

(** The stage the classifier of [resolve] hands a trimmed text to. *)
Inductive stage : Type :=
| NumberStage
| MentionStage
| UrlStage
| ScreenNameStage.

Definition classify (resource : string) : stage :=
  if numberRe resource then NumberStage
  else if isUserMentionRe resource || test systemMentionRe resource
       then MentionStage
  else if isVKUrl resource then UrlStage
  else ScreenNameStage.

(** Letters and digits: the characters of a type-prefixed identifier. *)
Definition plain (c : ascii) : bool := is_alpha c || is_digit c.

Definition not_white_space (c : ascii) : bool := negb (is_white_space c).

Definition no_bracket (c : ascii) : bool :=
  negb (Ascii.eqb c "[") && negb (Ascii.eqb c "]").

(** The text begins with a sigil. *)
Definition starts_with_sigil (s : string) : bool :=
  match s with
  | String c _ => is_sigil c
  | "" => false
  end.

(** The text [resolveUrl] gives to [new URL]. *)
Definition resourceUrl_of (rawResourceUrl : string) : string :=
  if negb (test hasProtocolRe rawResourceUrl)
  then "https://" ++ rawResourceUrl
  else rawResourceUrl.

(** The text starts with the character [x]. *)
Definition head_is (x : ascii) (s : string) : bool :=
  match s with String b _ => Ascii.eqb b x | "" => false end.

(** Some two neighbouring characters of the text are related by [p]. *)
Fixpoint exists_pair (p : ascii -> ascii -> bool) (s : string) : bool :=
  match s with
  | String a r =>
      match r with
      | String b _ => p a b || exists_pair p r
      | "" => false
      end
  | "" => false
  end.

(** An opening bracket followed by anything but a pipe, or a closing
    bracket preceded by anything but a pipe or a closing bracket. *)
Definition mention_pair (a b : ascii) : bool :=
  (Ascii.eqb a "[" && not_pipe b) || (not_pipe_bracket a && Ascii.eqb b "]").

Definition not_opening_bracket (c : ascii) : bool := negb (Ascii.eqb c "[").

(** An upper-case letter (of the Latin-1 range). *)
Definition is_upper_char (c : ascii) : bool :=
  ((65 <=? code c)%N && (code c <=? 90)%N) ||
  ((192 <=? code c)%N && (code c <=? 222)%N && negb (code c =? 215)%N).

Definition not_upper_char (c : ascii) : bool := negb (is_upper_char c).

(** The text holds no upper-case letter. *)
Definition no_upper_case (s : string) : bool := forall_chars not_upper_char s.

(** [[a-z]] *)
Definition is_lower_alpha (c : ascii) : bool :=
  (97 <=? code c)%N && (code c <=? 122)%N.

(** The alias table as the spec states it: [id] to [user], [club] and
    [public] to [group], [app] to [application], any other key kept. *)
Definition spec_alias (key : string) : string :=
  if String.eqb key "id" then "user"
  else if String.eqb key "club" then "group"
  else if String.eqb key "public" then "group"
  else if String.eqb key "app" then "application"
  else key.

(** Neither of the two characters that start a search parameter. *)
Definition not_separator (c : ascii) : bool :=
  negb (Ascii.eqb c "?" || Ascii.eqb c "&").

(** The characters of a signed run of digits. *)
Definition sign_or_digit (c : ascii) : bool := Ascii.eqb c "-" || is_digit c.

(** A collaborator that knows no screen name, and one that answers every
    query with the same object. *)
Definition api_no_match : ScreenNameLookup := fun _ => ResponseArray.

Definition api_answer (type : string) (object_id : Z) : ScreenNameLookup :=
  fun _ => ResponseObject type object_id.

(** * Properties *)

(** ** Characters *)

Ltac ascii_cases c :=
  destruct c as [[|] [|] [|] [|] [|] [|] [|] [|]].

Lemma plain_not_white_space c : plain c = true -> not_white_space c = true.
Proof. ascii_cases c; vm_compute; congruence. Qed.

Lemma digit_plain c : is_digit c = true -> plain c = true.
Proof. unfold plain; intros ->; apply orb_true_r. Qed.

Lemma alpha_plain c : is_alpha c = true -> plain c = true.
Proof. unfold plain; intros ->; reflexivity. Qed.

Lemma alpha_not_digit c : is_alpha c = true -> is_digit c = false.
Proof. ascii_cases c; vm_compute; congruence. Qed.

Lemma plain_eqb c x :
  plain c = true -> plain x = false -> Ascii.eqb x c = false.
Proof.
  intros Hc Hx. destruct (Ascii.eqb_spec x c) as [->|]; congruence.
Qed.

Lemma plain_eqb_ci c x :
  plain c = true -> plain x = false -> eqb_ci x c = false.
Proof.
  intros Hc Hx. unfold eqb_ci. rewrite (plain_eqb c x Hc Hx).
  unfold plain in Hx. apply orb_false_iff in Hx as [-> _]. reflexivity.
Qed.

Lemma plain_not_sigil c : plain c = true -> is_sigil c = false.
Proof. ascii_cases c; vm_compute; congruence. Qed.

Lemma digit_not_white_space c : is_digit c = true -> not_white_space c = true.
Proof. intros H. apply plain_not_white_space, digit_plain, H. Qed.

(** ** Strings *)

Lemma forall_chars_impl (p q : ascii -> bool) s :
  (forall c, p c = true -> q c = true) ->
  forall_chars p s = true -> forall_chars q s = true.
Proof.
  intros Hpq. induction s as [|c r IH]; simpl; [reflexivity|].
  intros [Hc Hr]%andb_true_iff. rewrite (Hpq c Hc), (IH Hr). reflexivity.
Qed.

Lemma forall_chars_app p a b :
  forall_chars p (a ++ b) = forall_chars p a && forall_chars p b.
Proof.
  induction a as [|c r IH]; simpl; [reflexivity|].
  rewrite IH. apply andb_assoc.
Qed.

Lemma exists_char_none (p q : ascii -> bool) s :
  (forall c, p c = true -> q c = false) ->
  forall_chars p s = true -> exists_char q s = false.
Proof.
  intros Hpq. induction s as [|c r IH]; simpl; [reflexivity|].
  intros [Hc Hr]%andb_true_iff. rewrite (Hpq c Hc), (IH Hr). reflexivity.
Qed.

(** [span] cuts the text in two. *)
Lemma span_app p s : fst (span p s) ++ snd (span p s) = s.
Proof.
  induction s as [|c r IH]; simpl; [reflexivity|].
  destruct (p c); [|reflexivity].
  destruct (span p r) as [a b]; simpl in *. now rewrite IH.
Qed.

Lemma span_fst_forall p s : forall_chars p (fst (span p s)) = true.
Proof.
  induction s as [|c r IH]; simpl; [reflexivity|].
  destruct (p c) eqn:Hc; [|reflexivity].
  destruct (span p r) as [a b]; simpl in *. now rewrite Hc, IH.
Qed.

Lemma span_snd_forall p q s :
  forall_chars q s = true -> forall_chars q (snd (span p s)) = true.
Proof.
  intros H. rewrite <- (span_app p s), forall_chars_app in H.
  now apply andb_true_iff in H.
Qed.

(** A run of the class followed by a character outside it. *)
Lemma span_run p a c r :
  forall_chars p a = true -> p c = false ->
  span p (a ++ String c r) = (a, String c r).
Proof.
  intros Ha Hc. induction a as [|d t IH]; simpl.
  - now rewrite Hc.
  - simpl in Ha. apply andb_true_iff in Ha as [Hd Ht].
    now rewrite Hd, (IH Ht).
Qed.

Lemma trimStart_id s :
  forall_chars not_white_space s = true -> trimStart s = s.
Proof.
  destruct s as [|c r]; simpl; [reflexivity|].
  unfold not_white_space at 1.
  intros [Hc _]%andb_true_iff. apply negb_true_iff in Hc. now rewrite Hc.
Qed.

Lemma trimEnd_id s :
  forall_chars not_white_space s = true -> trimEnd s = s.
Proof.
  induction s as [|c r IH]; simpl; [reflexivity|].
  unfold not_white_space at 1.
  intros [Hc Hr]%andb_true_iff. apply negb_true_iff in Hc.
  now rewrite Hc, (IH Hr).
Qed.

Lemma trim_id s : forall_chars not_white_space s = true -> trim s = s.
Proof.
  intros H. unfold trim. now rewrite (trimStart_id s H), (trimEnd_id s H).
Qed.

Lemma trimEnd_idem s : trimEnd (trimEnd s) = trimEnd s.
Proof.
  induction s as [|c r IH]; simpl; [reflexivity|].
  destruct (is_white_space c && is_empty (trimEnd r)) eqn:E; simpl;
    [reflexivity|].
  now rewrite IH, E.
Qed.

Lemma trimStart_head s c r :
  trimStart s = String c r -> is_white_space c = false.
Proof.
  induction s as [|d t IH]; simpl; [discriminate|].
  destruct (is_white_space d) eqn:Hd; [exact IH|].
  now intros [= <- _].
Qed.

Lemma trimEnd_head c r :
  is_white_space c = false -> trimEnd (String c r) = String c (trimEnd r).
Proof. intros H. simpl. now rewrite H. Qed.

Lemma trim_idem s : trim (trim s) = trim s.
Proof.
  unfold trim. destruct (trimStart s) as [|c r] eqn:E; [reflexivity|].
  pose proof (trimStart_head _ _ _ E) as Hc.
  rewrite (trimEnd_head c r Hc). simpl trimStart. rewrite Hc.
  rewrite <- (trimEnd_head c r Hc). apply trimEnd_idem.
Qed.

(** ** Decimal conversions *)

Lemma string_of_uint_digits d :
  forall_chars is_digit (DecimalString.NilEmpty.string_of_uint d) = true.
Proof. induction d; simpl; auto. Qed.

Lemma to_uint_digits1 p :
  digits1 (DecimalString.NilZero.string_of_uint (Pos.to_uint p)) = true.
Proof.
  pose proof (DecimalPos.Unsigned.to_uint_nonnil p) as Hnil.
  unfold digits1, DecimalString.NilZero.string_of_uint.
  destruct (Pos.to_uint p) eqn:E; try congruence;
    rewrite <- E, string_of_uint_digits, andb_true_r; rewrite E; reflexivity.
Qed.

(** A non-negative number prints as a non-empty run of digits. *)
Lemma Number_toString_digits n :
  0 <= n -> digits1 (Number_toString n) = true.
Proof.
  intros Hn. unfold Number_toString. destruct n as [|p|p]; simpl.
  - reflexivity.
  - apply to_uint_digits1.
  - lia.
Qed.

(** A negative number prints as a minus sign and the digits of its
    absolute value. *)
Lemma Number_toString_neg n :
  n < 0 -> Number_toString n = String "-" (Number_toString (- n)).
Proof.
  intros Hn. destruct n as [|p|p]; try lia. reflexivity.
Qed.

Lemma Number_toString_roundtrip n : Number (Number_toString n) = n.
Proof.
  unfold Number, Number_toString.
  rewrite DecimalString.NilZero.isi.
  - apply DecimalZ.of_to.
  - destruct n; simpl; try discriminate.
    intros [= H]. now apply DecimalPos.Unsigned.to_uint_nonnil in H.
  - destruct n; simpl; try discriminate.
    intros [= H]. now apply DecimalPos.Unsigned.to_uint_nonnil in H.
Qed.

Lemma digits1_head s :
  digits1 s = true -> exists c r, s = String c r /\ is_digit c = true.
Proof.
  destruct s as [|c r]; [discriminate|].
  unfold digits1; simpl. intros [Hc _]%andb_true_iff. now exists c, r.
Qed.

Lemma digits1_forall s : digits1 s = true -> forall_chars is_digit s = true.
Proof. unfold digits1. now intros [_ H]%andb_true_iff. Qed.

(** The value of a run of digits is not negative. *)
Lemma Number_digits_nonneg s : forall_chars is_digit s = true -> 0 <= Number s.
Proof.
  intros H. unfold Number, DecimalString.NilZero.int_of_string.
  destruct s as [|c r]; [lia|].
  simpl in H. apply andb_true_iff in H as [Hc _].
  assert (Ascii.eqb c "-" = false) as ->
    by (revert Hc; ascii_cases c; vm_compute; congruence).
  destruct (DecimalString.NilZero.uint_of_string (String c r)); simpl; [|lia].
  unfold Z.of_uint. apply N2Z.is_nonneg.
Qed.

Lemma digits_not_white_space s :
  forall_chars is_digit s = true -> forall_chars not_white_space s = true.
Proof. apply forall_chars_impl, digit_not_white_space. Qed.

Lemma Number_toString_not_white_space n :
  forall_chars not_white_space (Number_toString n) = true.
Proof.
  destruct (Z.ltb_spec n 0) as [Hn|Hn].
  - rewrite (Number_toString_neg n Hn). simpl.
    apply digits_not_white_space, digits1_forall, Number_toString_digits. lia.
  - apply digits_not_white_space, digits1_forall, Number_toString_digits, Hn.
Qed.

Lemma numberRe_Number_toString n : numberRe (Number_toString n) = true.
Proof.
  destruct (Z.ltb_spec n 0) as [Hn|Hn].
  - rewrite (Number_toString_neg n Hn). simpl.
    apply Number_toString_digits. lia.
  - pose proof (Number_toString_digits n Hn) as H.
    destruct (digits1_head _ H) as (c & r & E & Hc). rewrite E in *.
    unfold numberRe.
    assert (Ascii.eqb c "-" = false) as Hm
      by (revert Hc; ascii_cases c; vm_compute; congruence).
    apply Ascii.eqb_neq in Hm.
    revert Hm H. clear. ascii_cases c; try congruence; auto.
Qed.

(** ** The patterns on particular shapes of text *)

Lemma plain_no_bracket c : plain c = true -> no_bracket c = true.
Proof. ascii_cases c; vm_compute; congruence. Qed.

(** [numberRe] needs a minus sign or a digit in front. *)
Lemma numberRe_head c r :
  numberRe (String c r) = true -> c = "-"%char \/ is_digit c = true.
Proof.
  destruct (Ascii.eqb_spec c "-") as [->|Hc]; [now left|].
  intros H. right.
  assert (digits1 (String c r) = true) as Hd
    by (revert Hc H; clear; unfold numberRe; ascii_cases c; congruence).
  now destruct (digits1_head _ Hd) as (? & ? & [= <- <-] & ?).
Qed.

Lemma numberRe_alpha c r : is_alpha c = true -> numberRe (String c r) = false.
Proof.
  intros Hc. destruct (numberRe (String c r)) eqn:E; [|reflexivity].
  apply numberRe_head in E as [->|E]; [discriminate|].
  now rewrite (alpha_not_digit c Hc) in E.
Qed.


(** A failure of [leftmost] on every suffix allowed by an invariant of the
    text that its suffixes keep. *)
Lemma leftmost_none_inv {A} (f : string -> option A) (q : ascii -> bool) s :
  (forall t, forall_chars q t = true -> f t = None) ->
  forall_chars q s = true -> leftmost f s = None.
Proof.
  intros H. induction s as [|c r IH]; simpl; intros Hs.
  - now rewrite (H "" eq_refl).
  - rewrite (H (String c r) Hs).
    apply andb_true_iff in Hs as [_ Hr]. exact (IH Hr).
Qed.

Lemma systemMention_at_no_bracket s :
  forall_chars no_bracket s = true -> systemMention_at s = None.
Proof.
  intros Hs. unfold systemMention_at.
  assert (systemMention_alt1 s = None) as ->.
  { destruct s as [|c r]; [reflexivity|].
    simpl in Hs. apply andb_true_iff in Hs as [Hc _].
    revert Hc. unfold systemMention_alt1.
    ascii_cases c; try reflexivity. vm_compute. discriminate. }
  unfold systemMention_alt2.
  pose proof (span_snd_forall not_pipe_bracket no_bracket s Hs) as Hr.
  destruct (span not_pipe_bracket s) as [g r]; simpl in Hr.
  destruct (is_empty g); [reflexivity|].
  destruct r as [|c r]; [reflexivity|].
  simpl in Hr. apply andb_true_iff in Hr as [Hc _].
  revert Hc. ascii_cases c; try reflexivity. vm_compute. discriminate.
Qed.

(** A text without brackets holds no system mention. *)
Lemma systemMentionRe_no_bracket s :
  forall_chars no_bracket s = true -> systemMentionRe s = None.
Proof. apply leftmost_none_inv, systemMention_at_no_bracket. Qed.

Lemma prefix_ci_plain_none p s :
  forall_chars plain s = true ->
  exists_char (fun x => negb (plain x)) p = true ->
  prefix_ci p s = None.
Proof.
  revert s. induction p as [|a p IH]; simpl; [discriminate|].
  intros [|b s]; [reflexivity|]. simpl.
  intros [Hb Hs]%andb_true_iff Hp.
  destruct (eqb_ci a b) eqn:E; [|reflexivity].
  apply orb_true_iff in Hp as [Ha|Hp]; [|exact (IH s Hs Hp)].
  apply negb_true_iff in Ha. now rewrite (plain_eqb_ci b a Hb Ha) in E.
Qed.

Lemma prefix_ci_forall q p s r :
  prefix_ci p s = Some r -> forall_chars q s = true -> forall_chars q r = true.
Proof.
  revert s. induction p as [|a p IH]; simpl.
  - now intros s [= ->].
  - intros [|b s]; [discriminate|].
    destruct (eqb_ci a b); [|discriminate].
    intros H [_ Hs]%andb_true_iff. exact (IH s H Hs).
Qed.

(** A text of letters and digits is not a platform URL. *)
Lemma isVKUrl_plain s : forall_chars plain s = true -> isVKUrl s = false.
Proof.
  intros Hs. unfold isVKUrl, after_scheme, after_mobile, test.
  assert (forall t, forall_chars plain t = true ->
            existsb (fun s2 => match prefix_ci "vk.com" s2 with
                               | Some _ => true | None => false end)
              (match prefix_ci "m." t with Some u => [u] | None => [] end
               ++ [t])
            = false) as Hm.
  { intros t Ht.
    rewrite (prefix_ci_plain_none "m." t Ht eq_refl). cbn [app existsb].
    now rewrite (prefix_ci_plain_none "vk.com" t Ht eq_refl). }
  destruct (prefix_ci "http" s) as [r|] eqn:E.
  - pose proof (prefix_ci_forall plain _ _ _ E Hs) as Hr.
    rewrite (prefix_ci_plain_none "s://" r Hr eq_refl).
    rewrite (prefix_ci_plain_none "://" r Hr eq_refl).
    cbn [app existsb]. now rewrite (Hm s Hs).
  - cbn [app existsb]. now rewrite (Hm s Hs).
Qed.

Lemma isUserMentionRe_plain s :
  forall_chars plain s = true -> isUserMentionRe s = false.
Proof. apply exists_char_none, plain_not_sigil. Qed.

Lemma systemMentionRe_plain s :
  forall_chars plain s = true -> systemMentionRe s = None.
Proof.
  intros H. apply systemMentionRe_no_bracket.
  revert H. apply forall_chars_impl, plain_no_bracket.
Qed.

Lemma trim_plain s : forall_chars plain s = true -> trim s = s.
Proof.
  intros H. apply trim_id. revert H.
  apply forall_chars_impl, plain_not_white_space.
Qed.

(** ** The stages of [resolve] *)

Lemma classify_plain c r :
  is_alpha c = true -> forall_chars plain (String c r) = true ->
  classify (String c r) = ScreenNameStage.
Proof.
  intros Hc Hs. unfold classify, test.
  now rewrite (numberRe_alpha c r Hc), (isUserMentionRe_plain _ Hs),
    (systemMentionRe_plain _ Hs), (isVKUrl_plain _ Hs).
Qed.

Section ResolverFacts.

Variables parseAttachmentRe parseOwnerResourceRe
  : RegExp OwnerGroups.
Variable parseResourceRe : RegExp PlainGroups.
Variable api_resolveScreenName : ScreenNameLookup.
Variable new_URL : URLConstructor.

Local Abbreviation resolveScreenName' :=
  (resolveScreenName parseAttachmentRe parseOwnerResourceRe parseResourceRe
     api_resolveScreenName).
Local Abbreviation resolveNumber' :=
  (resolveNumber parseAttachmentRe parseOwnerResourceRe parseResourceRe
     api_resolveScreenName).
Local Abbreviation resolveMention' :=
  (resolveMention parseAttachmentRe parseOwnerResourceRe parseResourceRe
     api_resolveScreenName).
Local Abbreviation resolveUrl' :=
  (resolveUrl parseAttachmentRe parseOwnerResourceRe parseResourceRe
     api_resolveScreenName new_URL).
Local Abbreviation resolve' :=
  (resolve parseAttachmentRe parseOwnerResourceRe parseResourceRe
     api_resolveScreenName new_URL).

(** [resolve] is the guard followed by the dispatch on [classify]. *)
Lemma resolve_classify raw :
  resolve' raw =
  if falsy raw then
    Throw (ResourceError INVALID_RESOURCE "Resource is required")
  else
    let resource := trim (String_of_raw raw) in
    match classify resource with
    | NumberStage => resolveNumber' (Number resource)
    | MentionStage => resolveMention' resource
    | UrlStage => resolveUrl' resource
    | ScreenNameStage => resolveScreenName' (Some resource)
    end.
Proof.
  unfold resolve, classify. destruct (falsy raw); [reflexivity|].
  cbv zeta. destruct (numberRe _); [reflexivity|].
  destruct (isUserMentionRe _ || test systemMentionRe _); [reflexivity|].
  destruct (isVKUrl _); reflexivity.
Qed.

(** A non-zero safe integer reaches the numeric resolver unchanged. *)
Lemma resolve_RawNumber n :
  n <> 0 -> safe_integer n -> resolve' (RawNumber n) = resolveNumber' n.
Proof.
  intros Hn _. unfold resolve. simpl falsy.
  destruct (Z.eqb_spec n 0) as [|_]; [contradiction|].
  simpl String_of_raw.
  rewrite (trim_id _ (Number_toString_not_white_space n)).
  now rewrite numberRe_Number_toString, Number_toString_roundtrip.
Qed.

(** A text of letters and digits that starts with a letter reaches the
    screen-name resolver unchanged. *)
Lemma resolve_plain c r :
  is_alpha c = true -> forall_chars plain (String c r) = true ->
  resolve' (RawString (String c r)) = resolveScreenName' (Some (String c r)).
Proof.
  intros Hc Hs. rewrite resolve_classify. simpl falsy. cbv iota zeta.
  simpl String_of_raw. rewrite (trim_plain _ Hs).
  now rewrite (classify_plain c r Hc Hs).
Qed.

(** The errors each stage can raise. *)
Lemma resolveOwnerResource_throw resource pattern e :
  resolveOwnerResource resource pattern = Throw e -> e = TypeError.
Proof.
  unfold resolveOwnerResource. destruct resource as [r|]; [|congruence].
  destruct (pattern r) as [[[? ?] ?]|]; congruence.
Qed.

Lemma resolveScreenName_throw resource e :
  resolveScreenName' resource = Throw e ->
  e = TypeError \/
  e = ResourceError RESOURCE_NOT_FOUND "Resource not found".
Proof.
  unfold resolveScreenName.
  destruct (test parseAttachmentRe _);
    [intros H%resolveOwnerResource_throw; now left|].
  destruct (test parseOwnerResourceRe _);
    [intros H%resolveOwnerResource_throw; now left|].
  destruct (test parseResourceRe _).
  - destruct resource as [r|]; [|intros [= <-]; now left].
    destruct (parseResourceRe r) as [[? ?]|]; [discriminate|].
    intros [= <-]; now left.
  - destruct (api_resolveScreenName resource) as [|t i].
    + intros [= <-]; now right.
    + destruct (String.eqb t "page"); discriminate.
Qed.

Lemma resolveUrl_throw rawResourceUrl e :
  resolveUrl' rawResourceUrl = Throw e ->
  e = TypeError \/
  e = ResourceError INVALID_URL "URL should contain path" \/
  e = ResourceError RESOURCE_NOT_FOUND "Resource not found".
Proof.
  unfold resolveUrl. cbv zeta.
  destruct (new_URL _) as [u|]; cbn [bind]; [|intros [= <-]; now left].
  destruct (String.eqb (pathname u) "/");
    [intros [= <-]; right; now left|].
  destruct (test parseAttachmentRe _);
    [intros H%resolveOwnerResource_throw; now left|].
  destruct (test parseOwnerResourceRe _);
    [intros H%resolveOwnerResource_throw; now left|].
  intros [H|H]%resolveScreenName_throw; auto.
Qed.

Lemma resolveMention_throw resource e :
  resolveMention' resource = Throw e ->
  e = TypeError \/
  e = ResourceError RESOURCE_NOT_FOUND "Resource not found".
Proof.
  unfold resolveMention. destruct (isUserMentionRe resource).
  - apply resolveScreenName_throw.
  - destruct (systemMentionRe resource) as [[g ?]|];
      [apply resolveScreenName_throw|intros [= <-]; now left].
Qed.

(** [INVALID_RESOURCE] comes from the guard of [resolve] and from nowhere
    else. *)
Lemma resolve_INVALID_RESOURCE raw message :
  resolve' raw = Throw (ResourceError INVALID_RESOURCE message) ->
  falsy raw = true /\ message = "Resource is required".
Proof.
  rewrite resolve_classify. destruct (falsy raw); [now intros [= <-]|].
  cbv zeta. destruct (classify _).
  - intros [H|H]%resolveScreenName_throw; discriminate.
  - intros [H|H]%resolveMention_throw; discriminate.
  - intros [H|[H|H]]%resolveUrl_throw; discriminate.
  - intros [H|H]%resolveScreenName_throw; discriminate.
Qed.

Lemma falsy_iff raw :
  falsy raw = true <-> raw = RawNumber 0 \/ raw = RawString "".
Proof.
  destruct raw as [n|s]; simpl.
  - rewrite Z.eqb_eq. split; [intros ->; now left|].
    intros [[= ->]|[=]]; reflexivity.
  - destruct s; split; auto; try discriminate.
    intros [[=]|[=]].
Qed.

End ResolverFacts.

(** ** The patterns of [utils/helpers] *)

Lemma leftmost_some {A} (f : string -> option A) s m :
  leftmost f s = Some m -> exists t, f t = Some m.
Proof.
  induction s as [|c r IH]; simpl.
  - destruct (f "") eqn:E; [|discriminate]. intros [= <-]. now exists "".
  - destruct (f (String c r)) eqn:E; [|exact IH].
    intros [= <-]. now exists (String c r).
Qed.

Lemma literal_plain x s :
  plain x = false -> forall_chars plain s = true -> literal x s = None.
Proof.
  intros Hx. destruct s as [|c r]; [reflexivity|]. simpl.
  intros [Hc _]%andb_true_iff.
  destruct (Ascii.eqb_spec c x) as [->|]; congruence.
Qed.

(** The identifier captured by the owner-tagged shape is a run of digits. *)
Lemma owner_tagged_at_item s tag owner item :
  Helpers.owner_tagged_at s = Some (tag, owner, item) ->
  forall_chars is_digit item = true.
Proof.
  unfold Helpers.owner_tagged_at.
  destruct (span is_alpha s) as [t r1].
  destruct (is_empty t); [discriminate|].
  destruct (match literal "-" r1 with Some r => ("-", r) | None => ("", r1) end)
    as [sign r2].
  destruct (span is_digit r2) as [o r3].
  destruct (is_empty o); [discriminate|].
  destruct (literal "_" r3) as [r4|]; [|discriminate].
  pose proof (span_fst_forall is_digit r4) as H.
  destruct (span is_digit r4) as [i r5]; simpl in H.
  destruct (is_empty i); [discriminate|].
  now intros [= _ _ <-].
Qed.

Lemma owner_tagged_at_plain s :
  forall_chars plain s = true -> Helpers.owner_tagged_at s = None.
Proof.
  intros Hs. unfold Helpers.owner_tagged_at.
  pose proof (span_snd_forall is_alpha plain s Hs) as H1.
  destruct (span is_alpha s) as [t r1]; simpl in H1.
  destruct (is_empty t); [reflexivity|].
  rewrite (literal_plain "-" r1 eq_refl H1).
  pose proof (span_snd_forall is_digit plain r1 H1) as H3.
  destruct (span is_digit r1) as [o r3]; simpl in H3.
  destruct (is_empty o); [reflexivity|].
  now rewrite (literal_plain "_" r3 eq_refl H3).
Qed.

Lemma owner_embed_at_plain s :
  forall_chars plain s = true -> Helpers.owner_embed_at s = None.
Proof.
  intros Hs. unfold Helpers.owner_embed_at.
  pose proof (span_snd_forall is_alpha plain s Hs) as H1.
  destruct (span is_alpha s) as [t r1]; simpl in H1.
  destruct (is_empty t); [reflexivity|].
  now rewrite (literal_plain "=" r1 eq_refl H1).
Qed.

(** Neither owner-qualified pattern matches a text of letters and digits. *)
Lemma parseAttachmentRe_plain s :
  forall_chars plain s = true -> Helpers.parseAttachmentRe s = None.
Proof. apply leftmost_none_inv, owner_tagged_at_plain. Qed.

Lemma parseOwnerResourceRe_plain s :
  forall_chars plain s = true -> Helpers.parseOwnerResourceRe s = None.
Proof. apply leftmost_none_inv, owner_embed_at_plain. Qed.

Lemma parseAttachmentRe_item s tag owner item :
  Helpers.parseAttachmentRe s = Some (tag, owner, item) ->
  forall_chars is_digit item = true.
Proof.
  intros [t H]%leftmost_some. exact (owner_tagged_at_item _ _ _ _ H).
Qed.

Lemma parseOwnerResourceRe_item s tag owner item :
  Helpers.parseOwnerResourceRe s = Some (tag, owner, item) ->
  forall_chars is_digit item = true.
Proof.
  intros [t H]%leftmost_some. unfold Helpers.owner_embed_at in H.
  destruct (span is_alpha t) as [k r].
  destruct (is_empty k); [discriminate|].
  destruct (literal "=" r) as [r'|]; [|discriminate].
  exact (owner_tagged_at_item _ _ _ _ H).
Qed.

(** A match of the plain-ID pattern splits the text in a run of letters
    and a run of digits. *)
Lemma parseResourceRe_shape s prefix ds :
  Helpers.parseResourceRe s = Some (prefix, ds) ->
  s = prefix ++ ds /\
  (exists c r, prefix = String c r /\ is_alpha c = true) /\
  forall_chars is_alpha prefix = true /\
  digits1 ds = true.
Proof.
  unfold Helpers.parseResourceRe.
  pose proof (span_app is_alpha s) as Happ.
  pose proof (span_fst_forall is_alpha s) as Hall.
  destruct (span is_alpha s) as [p r]; simpl in *.
  destruct p as [|c p']; [discriminate|]. simpl is_empty. cbv iota.
  destruct (digits1 r) eqn:Hd; [|discriminate].
  intros [= <- <-]. repeat split; auto.
  exists c, p'. split; [reflexivity|].
  simpl in Hall. now apply andb_true_iff in Hall as [? _].
Qed.

Lemma parseResourceRe_plain s prefix ds :
  Helpers.parseResourceRe s = Some (prefix, ds) ->
  forall_chars plain s = true.
Proof.
  intros (-> & _ & Hp & Hd)%parseResourceRe_shape.
  rewrite forall_chars_app. apply andb_true_iff. split.
  - revert Hp. apply forall_chars_impl, alpha_plain.
  - apply digits1_forall in Hd. revert Hd. apply forall_chars_impl, digit_plain.
Qed.

(** * The claims *)

Section AnyPatterns.

(** The claims of this section hold whatever the imported patterns [att]
    ([parseAttachmentRe]), [own] ([parseOwnerResourceRe]) and [res]
    ([parseResourceRe]) match, whatever the collaborator [api] answers and
    whatever [url] ([new URL]) accepts. *)
Variables att own : RegExp OwnerGroups.
Variable res : RegExp PlainGroups.
Variable api : ScreenNameLookup.
Variable url : URLConstructor.

(** C2, amended.  [resolve(0)] is invalid: the guard [!rawResource] rejects
    the integer zero, as it rejects the empty string, with
    [INVALID_RESOURCE] and the message "Resource is required".  Every
    non-zero safe integer passes the guard, is never answered with
    [INVALID_RESOURCE], and is handed as it is to the numeric resolver. *)
Theorem C2_zero_is_rejected (n : Z) :
  n <> 0 -> safe_integer n ->
  resolve att own res api url (RawNumber 0)
    = Throw (ResourceError INVALID_RESOURCE "Resource is required") /\
  resolve att own res api url (RawString "")
    = Throw (ResourceError INVALID_RESOURCE "Resource is required") /\
  resolve att own res api url (RawNumber n) = resolveNumber att own res api n /\
  (forall message,
     resolve att own res api url (RawNumber n)
       <> Throw (ResourceError INVALID_RESOURCE message)).
Proof.
  intros Hn Hsafe. repeat split.
  - now apply resolve_RawNumber.
  - intros message [Hf _]%resolve_INVALID_RESOURCE.
    simpl in Hf. apply Z.eqb_eq in Hf. contradiction.
Qed.

(** C3, amended.  [resolve] fails with [INVALID_RESOURCE] exactly when the
    raw input is falsy, that is the empty string or the integer zero.  The
    guard runs before the text is trimmed: a non-empty text [w] that is
    zero-length after trimming passes it and reaches the screen-name
    resolver as the empty text.  The text is trimmed before it is
    classified: when [trim s] is not empty, [resolve s] is
    [resolve (trim s)]. *)
Theorem C3_guard_then_trim (raw : RawResource) (w s : string) :
  w <> "" -> trim w = "" -> trim s <> "" ->
  ((exists message,
      resolve att own res api url raw
        = Throw (ResourceError INVALID_RESOURCE message))
   <-> raw = RawNumber 0 \/ raw = RawString "") /\
  resolve att own res api url (RawString w)
    = resolveScreenName att own res api (Some "") /\
  resolve att own res api url (RawString s)
    = resolve att own res api url (RawString (trim s)).
Proof.
  intros Hw Hwt Hs. split; [|split].
  - rewrite <- falsy_iff. split.
    + intros [message H]. now apply resolve_INVALID_RESOURCE in H.
    + intros H. exists "Resource is required". unfold resolve. now rewrite H.
  - unfold resolve. destruct w as [|c r]; [contradiction|].
    simpl falsy. cbv iota zeta. simpl String_of_raw. rewrite Hwt. reflexivity.
  - unfold resolve. simpl String_of_raw. rewrite trim_idem.
    destruct s as [|c r]; [contradiction|]. simpl falsy. cbv iota.
    destruct (trim (String c r)); [contradiction|]. reflexivity.
Qed.

End AnyPatterns.

(** C2: with the patterns of the spec, [resolve(0)] is not resolved. *)
Lemma C2_counterexample :
  resolve_with_helpers api_no_match WhatwgURL.parse (RawNumber 0)
    = Throw (ResourceError INVALID_RESOURCE "Resource is required") /\
  ~ (exists r,
       resolve_with_helpers api_no_match WhatwgURL.parse (RawNumber 0)
         = Return r).
Proof. split; [reflexivity|]. intros [r H]. discriminate H. Qed.

Lemma C2_zero_is_rejected_witness :
  7 <> 0 /\ safe_integer 7 /\
  resolve_with_helpers api_no_match WhatwgURL.parse (RawNumber 7)
    = resolveNumber Helpers.parseAttachmentRe Helpers.parseOwnerResourceRe
        Helpers.parseResourceRe api_no_match 7.
Proof.
  assert (7 <> 0) as H1 by lia.
  assert (safe_integer 7) as H2
    by (unfold safe_integer, MAX_SAFE_INTEGER; lia).
  split; [exact H1|]. split; [exact H2|].
  exact (proj1 (proj2 (proj2 (C2_zero_is_rejected Helpers.parseAttachmentRe
           Helpers.parseOwnerResourceRe Helpers.parseResourceRe
           api_no_match WhatwgURL.parse 7 H1 H2)))).
Defined.

(** C3: a text of three spaces is not answered with [INVALID_RESOURCE]; it
    is looked up as the empty screen name. *)
Lemma C3_counterexample :
  trim "   " = "" /\
  resolve_with_helpers api_no_match WhatwgURL.parse (RawString "   ")
    = Throw (ResourceError RESOURCE_NOT_FOUND "Resource not found") /\
  resolve_with_helpers (api_answer "user" 1) WhatwgURL.parse (RawString "   ")
    = Return {| id := 1; ownerId := None; type := "user" |}.
Proof. repeat split. Qed.

Lemma C3_guard_then_trim_witness :
  "  " <> "" /\ trim "  " = "" /\ trim " club1 " <> "" /\
  resolve_with_helpers api_no_match WhatwgURL.parse (RawString " club1 ")
    = resolve_with_helpers api_no_match WhatwgURL.parse
        (RawString (trim " club1 ")).
Proof.
  assert ("  " <> "") as H1 by discriminate.
  assert (trim "  " = "") as H2 by reflexivity.
  assert (trim " club1 " <> "") as H3 by discriminate.
  split; [exact H1|]. split; [exact H2|]. split; [exact H3|].
  apply (C3_guard_then_trim Helpers.parseAttachmentRe
           Helpers.parseOwnerResourceRe Helpers.parseResourceRe
           api_no_match WhatwgURL.parse (RawNumber 0) "  " " club1 " H1 H2 H3).
Defined.

(** ** Numbers *)

(** The screen name the numeric resolver builds for [n]. *)
Lemma resolveNumber_screen_name
    (att own : RegExp OwnerGroups) (res : RegExp PlainGroups)
    (api : ScreenNameLookup) (n : Z) :
  resolveNumber att own res api n
    = resolveScreenName att own res api
        (Some ((if n <? 0 then "club" else "id") ++ Number_toString (Z.abs n))).
Proof.
  unfold resolveNumber. cbv zeta.
  destruct (Z.ltb_spec n 0) as [Hn|Hn].
  - now rewrite (Z.abs_neq n) by lia.
  - now rewrite (Z.abs_eq n) by lia.
Qed.

Lemma prefixed_digits_plain (p : string) (n : Z) :
  forall_chars plain p = true ->
  forall_chars plain (p ++ Number_toString (Z.abs n)) = true.
Proof.
  intros Hp. rewrite forall_chars_app, Hp. simpl.
  pose proof (Number_toString_digits (Z.abs n) (Z.abs_nonneg n)) as H.
  apply digits1_forall in H. revert H. apply forall_chars_impl, digit_plain.
Qed.

(** C5, amended.  For every negative safe integer [n], [resolve n]
    re-dispatches the absolute value with prefix [club] and yields the
    result of [resolve ("club" + (-n))], so [resolve (-123)] is
    [{id: 123, type: "group"}]; for every positive safe integer [n],
    [resolve n] re-dispatches with prefix [id] and yields the result of
    [resolve ("id" + n)], so [resolve 123] is [{id: 123, type: "user"}].
    The numeric resolver never produces a result directly: it hands every
    safe integer, zero included ([id0]), to the screen-name resolver.  The
    integer zero does not reach it through [resolve]. *)
Theorem C5_numbers_redispatch
    (att own : RegExp OwnerGroups) (res : RegExp PlainGroups)
    (api : ScreenNameLookup) (url : URLConstructor) (n : Z) :
  n <> 0 -> safe_integer n ->
  let screen_name :=
    (if n <? 0 then "club" else "id") ++ Number_toString (Z.abs n) in
  resolve att own res api url (RawNumber n)
    = resolveScreenName att own res api (Some screen_name) /\
  resolve att own res api url (RawNumber n)
    = resolve att own res api url (RawString screen_name) /\
  (forall m : Z,
     safe_integer m ->
     resolveNumber att own res api m
       = resolveScreenName att own res api
           (Some ((if m <? 0 then "club" else "id")
                  ++ Number_toString (Z.abs m)))) /\
  resolveNumber att own res api 0
    = resolveScreenName att own res api (Some "id0") /\
  resolve_with_helpers api url (RawNumber (-123))
    = Return {| id := 123; ownerId := None; type := "group" |} /\
  resolve_with_helpers api url (RawNumber 123)
    = Return {| id := 123; ownerId := None; type := "user" |}.
Proof.
  intros Hn Hsafe screen_name.
  assert (resolve att own res api url (RawNumber n)
          = resolveScreenName att own res api (Some screen_name)) as H1.
  { rewrite (resolve_RawNumber _ _ _ _ _ n Hn Hsafe).
    apply resolveNumber_screen_name. }
  split; [exact H1|]. split.
  - rewrite H1. symmetry. subst screen_name.
    destruct (n <? 0).
    + apply (resolve_plain att own res api url "c"); [reflexivity|].
      now apply (prefixed_digits_plain "club").
    + apply (resolve_plain att own res api url "i"); [reflexivity|].
      now apply (prefixed_digits_plain "id").
  - split; [intros m _; apply resolveNumber_screen_name|].
    split; [reflexivity|]. split; reflexivity.
Qed.

Lemma C5_numbers_redispatch_witness :
  (-5) <> 0 /\ safe_integer (-5) /\
  resolve_with_helpers api_no_match WhatwgURL.parse (RawNumber (-5))
    = resolve_with_helpers api_no_match WhatwgURL.parse (RawString "club5").
Proof.
  assert ((-5) <> 0) as H by lia.
  assert (safe_integer (-5)) as Hs
    by (unfold safe_integer, MAX_SAFE_INTEGER; lia).
  split; [exact H|]. split; [exact Hs|].
  exact (proj1 (proj2 (C5_numbers_redispatch Helpers.parseAttachmentRe
           Helpers.parseOwnerResourceRe Helpers.parseResourceRe
           api_no_match WhatwgURL.parse (-5) H Hs))).
Defined.

(** C5: the integer zero is non-negative and is not re-dispatched with
    prefix [id]: [resolve 0] fails where [id0] resolves. *)
Lemma C5_counterexample :
  0 <= 0 /\
  resolve_with_helpers api_no_match WhatwgURL.parse (RawNumber 0)
    <> resolveScreenName_with_helpers api_no_match
         (Some ("id" ++ Number_toString 0)) /\
  resolve_with_helpers api_no_match WhatwgURL.parse (RawNumber 0)
    <> resolve_with_helpers api_no_match WhatwgURL.parse
         (RawString ("id" ++ Number_toString 0)).
Proof. split; [lia|]. split; discriminate. Qed.

(** C10.  The guard looks at the raw value, before [String(...)] and
    [trim()]: the text ["0"] passes it and resolves through the numeric
    stage to [{id: 0, type: "user"}], while the integer [0], whose text is
    the same ["0"], is falsy and is rejected with [INVALID_RESOURCE]. *)
Theorem C10_zero_text_and_zero_number
    (api : ScreenNameLookup) (url : URLConstructor) :
  falsy (RawString "0") = false /\
  classify (trim (String_of_raw (RawString "0"))) = NumberStage /\
  resolve_with_helpers api url (RawString "0")
    = Return {| id := 0; ownerId := None; type := "user" |} /\
  falsy (RawNumber 0) = true /\
  String_of_raw (RawNumber 0) = "0" /\
  resolve_with_helpers api url (RawNumber 0)
    = Throw (ResourceError INVALID_RESOURCE "Resource is required").
Proof. repeat split. Qed.

(** ** Type-prefixed identifiers *)

(** The third branch of the screen-name resolver, whatever the patterns. *)
Lemma resolveScreenName_plain_id
    (att own : RegExp OwnerGroups) (res : RegExp PlainGroups)
    (api : ScreenNameLookup) (s prefix ds : string) :
  att s = None -> own s = None -> res s = Some (prefix, ds) ->
  resolveScreenName att own res api (Some s)
    = Return {| id := Number ds;
                ownerId := None;
                type := match enumResourceTypes (toLowerCase prefix) with
                        | Some t => t
                        | None => toLowerCase prefix
                        end |}.
Proof.
  intros Ha Ho Hr. unfold resolveScreenName, test. simpl ToString.
  now rewrite Ha, Ho, Hr.
Qed.

Lemma enumResourceTypes_other (key : string) :
  key <> "id" -> key <> "club" -> key <> "public" -> key <> "app" ->
  ~ In key Object_prototype_keys ->
  enumResourceTypes key = None.
Proof.
  intros H1 H2 H3 H4 Hin. unfold enumResourceTypes.
  apply String.eqb_neq in H1, H2, H3, H4. rewrite H1, H2, H3, H4.
  destruct (existsb (String.eqb key) Object_prototype_keys) eqn:E;
    [|reflexivity].
  apply existsb_exists in E as (k & Hk & E). apply String.eqb_eq in E.
  subst k. contradiction.
Qed.

Lemma lower_char_alpha c :
  is_alpha c = true -> is_lower_alpha (lower_char c) = true.
Proof. ascii_cases c; vm_compute; congruence. Qed.

Lemma toLowerCase_alpha s :
  forall_chars is_alpha s = true ->
  forall_chars is_lower_alpha (toLowerCase s) = true.
Proof.
  induction s as [|c r IH]; simpl; [reflexivity|].
  intros [Hc Hr]%andb_true_iff. now rewrite (lower_char_alpha c Hc), (IH Hr).
Qed.

(** Among the members of [Object.prototype] only [constructor] is spelled
    with lower-case letters alone. *)
Lemma inherited_lower_alpha key :
  forall_chars is_lower_alpha key = true ->
  existsb (String.eqb key) Object_prototype_keys = true ->
  key = "constructor".
Proof.
  intros Hk Hin. apply existsb_exists in Hin as (k & Hin & E).
  apply String.eqb_eq in E. subst k.
  repeat (destruct Hin as [<-|Hin];
          [first [reflexivity|vm_compute in Hk; discriminate Hk]|]).
  destruct Hin.
Qed.

(** Outside [constructor], the table of the code is the table of the
    spec on a key of lower-case letters. *)
Lemma enumResourceTypes_spec_alias key :
  forall_chars is_lower_alpha key = true -> key <> "constructor" ->
  match enumResourceTypes key with
  | Some t => t
  | None => TypeString key
  end = TypeString (spec_alias key).
Proof.
  intros Hk Hc. unfold enumResourceTypes, spec_alias.
  destruct (String.eqb key "id"); [reflexivity|].
  destruct (String.eqb key "club"); [reflexivity|].
  destruct (String.eqb key "public"); [reflexivity|].
  destruct (String.eqb key "app"); [reflexivity|].
  destruct (existsb (String.eqb key) Object_prototype_keys) eqn:E;
    [|reflexivity].
  now contradiction Hc; apply inherited_lower_alpha.
Qed.

(** C6, on the code.  For every text [s] that matches the plain-ID grammar
    as [<prefix><digits>], [resolve s] returns the identifier, which is not
    negative, with no [ownerId], and lowercases the prefix.  Unless the
    lowercased prefix is [constructor], the type is what the alias table
    of the claim makes of it: [user] for [id], [group] for [club] and
    [public], [application] for [app], the lowercased prefix itself
    otherwise; [club15], [public15], [app7] and [xyz9] resolve as the spec
    says, and so do [Club15] and [XYZ9] once their prefix is lowercased.
    The table is an object literal, though, and it is indexed without
    asking whether the key is its own: for the prefix [constructor] the
    type is no string but the member the table inherits from
    [Object.prototype]. *)
Theorem C6_type_prefixed_id
    (api : ScreenNameLookup) (url : URLConstructor) (s prefix ds : string) :
  Helpers.parseResourceRe s = Some (prefix, ds) ->
  resolve_with_helpers api url (RawString s)
    = Return {| id := Number ds;
                ownerId := None;
                type := match enumResourceTypes (toLowerCase prefix) with
                        | Some t => t
                        | None => toLowerCase prefix
                        end |} /\
  0 <= Number ds /\
  (toLowerCase prefix <> "constructor" ->
   resolve_with_helpers api url (RawString s)
     = Return {| id := Number ds;
                 ownerId := None;
                 type := spec_alias (toLowerCase prefix) |}) /\
  (forall (att own : RegExp OwnerGroups)
          (res : RegExp PlainGroups) (t p d : string),
     att t = None -> own t = None -> res t = Some (p, d) ->
     resolveScreenName att own res api (Some t)
       = Return {| id := Number d;
                   ownerId := None;
                   type := match enumResourceTypes (toLowerCase p) with
                           | Some k => k
                           | None => toLowerCase p
                           end |}) /\
  enumResourceTypes "id" = Some (TypeString "user") /\
  enumResourceTypes "club" = Some (TypeString "group") /\
  enumResourceTypes "public" = Some (TypeString "group") /\
  enumResourceTypes "app" = Some (TypeString "application") /\
  (forall key, key <> "id" -> key <> "club" -> key <> "public" ->
               key <> "app" -> ~ In key Object_prototype_keys ->
               enumResourceTypes key = None) /\
  resolve_with_helpers api url (RawString "club15")
    = Return {| id := 15; ownerId := None; type := "group" |} /\
  resolve_with_helpers api url (RawString "public15")
    = Return {| id := 15; ownerId := None; type := "group" |} /\
  resolve_with_helpers api url (RawString "app7")
    = Return {| id := 7; ownerId := None; type := "application" |} /\
  resolve_with_helpers api url (RawString "xyz9")
    = Return {| id := 9; ownerId := None; type := "xyz" |} /\
  resolve_with_helpers api url (RawString "Club15")
    = Return {| id := 15; ownerId := None; type := "group" |} /\
  resolve_with_helpers api url (RawString "XYZ9")
    = Return {| id := 9; ownerId := None; type := "xyz" |} /\
  enumResourceTypes "constructor" = Some (TypeInherited "constructor") /\
  resolve_with_helpers api url (RawString "constructor1")
    = Return {| id := 1; ownerId := None;
                type := TypeInherited "constructor" |} /\
  resolve_with_helpers api url (RawString "constructor1")
    <> Return {| id := 1; ownerId := None; type := "constructor" |}.
Proof.
  intros H.
  pose proof (parseResourceRe_plain _ _ _ H) as Hplain.
  destruct (parseResourceRe_shape _ _ _ H)
    as (Hs & (c & r & Hp & Hc) & Halpha & Hd).
  assert (resolve_with_helpers api url (RawString s)
          = Return {| id := Number ds;
                      ownerId := None;
                      type := match enumResourceTypes (toLowerCase prefix) with
                              | Some t => t
                              | None => toLowerCase prefix
                              end |}) as Hres.
  { unfold resolve_with_helpers.
    assert (s = String c (r ++ ds)) as E by (now rewrite Hs, Hp).
    rewrite E in Hplain |- *.
    rewrite (resolve_plain _ _ _ api url c (r ++ ds) Hc Hplain).
    rewrite <- E in Hplain |- *.
    apply resolveScreenName_plain_id;
      [now apply parseAttachmentRe_plain
      |now apply parseOwnerResourceRe_plain
      |exact H]. }
  split; [exact Hres|]. split; [|split].
  - apply Number_digits_nonneg, digits1_forall, Hd.
  - intros Hnc. rewrite Hres.
    now rewrite (enumResourceTypes_spec_alias _
                   (toLowerCase_alpha _ Halpha) Hnc).
  - split; [intros att own res t p d; apply resolveScreenName_plain_id|].
    repeat (split; [reflexivity|]).
    split; [exact enumResourceTypes_other|].
    repeat (split; [reflexivity|]). discriminate.
Qed.

Lemma C6_type_prefixed_id_witness :
  Helpers.parseResourceRe "Public15" = Some ("Public", "15") /\
  toLowerCase "Public" <> "constructor" /\
  resolve_with_helpers api_no_match WhatwgURL.parse (RawString "Public15")
    = Return {| id := Number "15";
                ownerId := None;
                type := spec_alias (toLowerCase "Public") |}.
Proof.
  assert (Helpers.parseResourceRe "Public15" = Some ("Public", "15")) as H
    by reflexivity.
  assert (toLowerCase "Public" <> "constructor") as Hc by discriminate.
  split; [exact H|]. split; [exact Hc|].
  exact (proj1 (proj2 (proj2 (C6_type_prefixed_id api_no_match
                  WhatwgURL.parse "Public15" "Public" "15" H))) Hc).
Defined.

(** ** Mentions *)

Lemma trimEnd_app (x y : string) :
  trimEnd y <> "" -> trimEnd (x ++ y) = x ++ trimEnd y.
Proof.
  intros Hy. induction x as [|c x IH]; simpl; [reflexivity|].
  rewrite IH. destruct (x ++ trimEnd y) eqn:E.
  - destruct x; simpl in E; [contradiction|discriminate].
  - simpl. now rewrite andb_false_r.
Qed.

(** A bracket mention has no white space to trim at its ends. *)
Lemma trim_bracket (a b : string) :
  trim ("[" ++ a ++ "|" ++ b ++ "]") = "[" ++ a ++ "|" ++ b ++ "]".
Proof.
  unfold trim. simpl trimStart.
  change ("[" ++ a ++ "|" ++ b ++ "]")
    with (String "[" (a ++ String "|" (b ++ "]"))).
  rewrite (trimEnd_head "[") by reflexivity.
  assert (trimEnd (b ++ "]") = b ++ "]") as Hb
    by (rewrite trimEnd_app; [reflexivity|discriminate]).
  assert (trimEnd (String "|" (b ++ "]")) = String "|" (b ++ "]")) as Hp
    by (rewrite (trimEnd_head "|") by reflexivity; now rewrite Hb).
  rewrite trimEnd_app; rewrite Hp; [reflexivity|discriminate].
Qed.




(** ** The remote fallback *)

(** C9.  When none of the three patterns matches [s], the screen-name
    resolver asks the collaborator about [s] itself.  An array for answer
    makes it fail with [RESOURCE_NOT_FOUND] and the message "Resource not
    found"; an object [{type, object_id}] makes it return [object_id] as
    [id], with type [group] when the reported type is [page] and with the
    reported type otherwise, and no [ownerId]. *)
Theorem C9_remote_fallback
    (att own : RegExp OwnerGroups) (res : RegExp PlainGroups)
    (api : ScreenNameLookup) (url : URLConstructor) (s : string) :
  att s = None -> own s = None -> res s = None ->
  resolveScreenName att own res api (Some s)
    = match api (Some s) with
      | ResponseArray =>
          Throw (ResourceError RESOURCE_NOT_FOUND "Resource not found")
      | ResponseObject reported object_id =>
          Return {| id := object_id;
                    ownerId := None;
                    type := if String.eqb reported "page" then "group"
                            else reported |}
      end /\
  resolve_with_helpers (api_answer "page" 42) url (RawString "durov")
    = Return {| id := 42; ownerId := None; type := "group" |} /\
  resolve_with_helpers (api_answer "user" 42) url (RawString "durov")
    = Return {| id := 42; ownerId := None; type := "user" |} /\
  resolve_with_helpers api_no_match url (RawString "durov")
    = Throw (ResourceError RESOURCE_NOT_FOUND "Resource not found").
Proof.
  intros Ha Ho Hr. split.
  - unfold resolveScreenName, test. simpl ToString. rewrite Ha, Ho, Hr.
    destruct (api (Some s)) as [|reported object_id]; [reflexivity|].
    destruct (String.eqb reported "page"); reflexivity.
  - repeat (split; [reflexivity|]). reflexivity.
Qed.

Lemma C9_remote_fallback_witness :
  Helpers.parseAttachmentRe "durov" = None /\
  Helpers.parseOwnerResourceRe "durov" = None /\
  Helpers.parseResourceRe "durov" = None /\
  resolveScreenName_with_helpers (api_answer "page" 42) (Some "durov")
    = Return {| id := 42; ownerId := None; type := "group" |}.
Proof.
  assert (Helpers.parseAttachmentRe "durov" = None) as H1 by reflexivity.
  assert (Helpers.parseOwnerResourceRe "durov" = None) as H2 by reflexivity.
  assert (Helpers.parseResourceRe "durov" = None) as H3 by reflexivity.
  split; [exact H1|]. split; [exact H2|]. split; [exact H3|].
  exact (proj1 (C9_remote_fallback Helpers.parseAttachmentRe
                  Helpers.parseOwnerResourceRe Helpers.parseResourceRe
                  (api_answer "page" 42) WhatwgURL.parse "durov" H1 H2 H3)).
Defined.

(** ** The outcomes of [resolve] *)

(** With the patterns of the spec, the screen-name resolver returns a
    resource or fails with [RESOURCE_NOT_FOUND], also on [undefined]. *)
Lemma resolveScreenName_with_helpers_outcome
    (api : ScreenNameLookup) (resource : option string) :
  (forall query reported object_id,
     api query = ResponseObject reported object_id -> 0 <= object_id) ->
  match resolveScreenName_with_helpers api resource with
  | Return r => 0 <= id r
  | Throw (ResourceError code message) =>
      code = RESOURCE_NOT_FOUND /\ message = "Resource not found"
  | Throw TypeError => False
  end.
Proof.
  intros Hapi. unfold resolveScreenName_with_helpers, resolveScreenName.
  destruct resource as [s|].
  - unfold test, resolveOwnerResource. simpl ToString.
    destruct (Helpers.parseAttachmentRe s) as [[[t o] i]|] eqn:Ea.
    { simpl. eapply Number_digits_nonneg, parseAttachmentRe_item, Ea. }
    destruct (Helpers.parseOwnerResourceRe s) as [[[t o] i]|] eqn:Eo.
    { simpl. eapply Number_digits_nonneg, parseOwnerResourceRe_item, Eo. }
    destruct (Helpers.parseResourceRe s) as [[p d]|] eqn:Er.
    { simpl. apply parseResourceRe_shape in Er as (_ & _ & _ & Hd).
      apply Number_digits_nonneg, digits1_forall, Hd. }
    destruct (api (Some s)) as [|reported object_id] eqn:E; [now split|].
    destruct (String.eqb reported "page"); simpl; eapply Hapi, E.
  - change (test Helpers.parseAttachmentRe (ToString None)) with false.
    change (test Helpers.parseOwnerResourceRe (ToString None)) with false.
    change (test Helpers.parseResourceRe (ToString None)) with false.
    cbv iota.
    destruct (api None) as [|reported object_id] eqn:E; [now split|].
    destruct (String.eqb reported "page"); simpl; eapply Hapi, E.
Qed.

Lemma resolveOwnerResource_outcome
    (pattern : RegExp OwnerGroups) (s : string) :
  (forall t tag owner item,
     pattern t = Some (tag, owner, item) ->
     forall_chars is_digit item = true) ->
  test pattern s = true ->
  exists r, resolveOwnerResource (Some s) pattern = Return r /\ 0 <= id r.
Proof.
  intros Hitem. unfold test, resolveOwnerResource.
  destruct (pattern s) as [[[t o] i]|] eqn:E; [|discriminate].
  intros _. eexists. split; [reflexivity|]. simpl.
  eapply Number_digits_nonneg, Hitem, E.
Qed.

(** C1, amended.  For every non-empty raw input, and a collaborator that
    reports no negative [object_id], [resolve] either returns a resource
    whose [id] is not negative (its [type] is a string), or fails with
    [INVALID_URL] or [RESOURCE_NOT_FOUND], or, on the URL stage only, lets
    through the [TypeError] of [new URL] when the text is not a URL.  For a
    text sent to the mention resolver without a sigil the asserted match of
    [systemMentionRe] is never [null], and its capture group 1 is defined
    whenever the text starts with a bracket followed by a character other
    than the pipe; the group is then the text up to the first pipe. *)
Theorem C1_outcomes_of_resolve
    (api : ScreenNameLookup) (url : URLConstructor) (raw : RawResource) :
  falsy raw = false ->
  (forall query reported object_id,
     api query = ResponseObject reported object_id -> 0 <= object_id) ->
  match resolve_with_helpers api url raw with
  | Return r => 0 <= id r
  | Throw (ResourceError code message) =>
      (code = INVALID_URL /\ message = "URL should contain path") \/
      (code = RESOURCE_NOT_FOUND /\ message = "Resource not found")
  | Throw TypeError =>
      classify (trim (String_of_raw raw)) = UrlStage /\
      url (resourceUrl_of (trim (String_of_raw raw))) = None
  end /\
  (forall s, classify s = MentionStage -> isUserMentionRe s = false ->
             systemMentionRe s <> None) /\
  (forall c r, c <> "|"%char ->
     systemMentionRe (String "[" (String c r))
       = Some (Some (fst (span not_pipe (String c r))), None)).
Proof.
  intros Hraw Hapi. split; [|split].
  - unfold resolve_with_helpers. rewrite resolve_classify, Hraw. cbv zeta.
    pose proof (resolveScreenName_with_helpers_outcome api) as Hsn.
    unfold resolveScreenName_with_helpers in Hsn.
    destruct (classify (trim (String_of_raw raw))) eqn:Ec.
    + specialize (Hsn (Some ((if Number (trim (String_of_raw raw)) <? 0
                              then "club" else "id")
                             ++ Number_toString
                                  (if Number (trim (String_of_raw raw)) <? 0
                                   then - Number (trim (String_of_raw raw))
                                   else Number (trim (String_of_raw raw)))))
                    Hapi).
      unfold resolveNumber. cbv zeta.
      destruct (resolveScreenName _ _ _ _ _) as [r|[code message|]];
        [exact Hsn|right; exact Hsn|contradiction].
    + unfold resolveMention.
      destruct (isUserMentionRe _) eqn:Em.
      * specialize (Hsn (Some (substring1 (trim (String_of_raw raw)))) Hapi).
        destruct (resolveScreenName _ _ _ _ _) as [r|[code message|]];
          [exact Hsn|right; exact Hsn|contradiction].
      * destruct (systemMentionRe _) as [[g ?]|] eqn:Es.
        { specialize (Hsn g Hapi).
          destruct (resolveScreenName _ _ _ _ _) as [r|[code message|]];
            [exact Hsn|right; exact Hsn|contradiction]. }
        exfalso. unfold classify, test in Ec. rewrite Em, Es in Ec.
        destruct (numberRe _); [discriminate|]. simpl in Ec.
        destruct (isVKUrl _); discriminate.
    + unfold resolveUrl. cbv zeta.
      fold (resourceUrl_of (trim (String_of_raw raw))).
      destruct (url _) as [u|]; cbn [bind]; [|now split].
      destruct (String.eqb (pathname u) "/"); [left; now split|].
      destruct (test Helpers.parseAttachmentRe (search u)) eqn:Ea.
      { destruct (resolveOwnerResource_outcome _ (search u)
                    parseAttachmentRe_item Ea) as (r & -> & Hr). exact Hr. }
      destruct (test Helpers.parseOwnerResourceRe (search u)) eqn:Eo.
      { destruct (resolveOwnerResource_outcome _ (search u)
                    parseOwnerResourceRe_item Eo) as (r & -> & Hr). exact Hr. }
      specialize (Hsn (Some (substring1 (pathname u))) Hapi).
      destruct (resolveScreenName _ _ _ _ _) as [r|[code message|]];
        [exact Hsn|right; exact Hsn|contradiction].
    + specialize (Hsn (Some (trim (String_of_raw raw))) Hapi).
      destruct (resolveScreenName _ _ _ _ _) as [r|[code message|]];
        [exact Hsn|right; exact Hsn|contradiction].
  - intros s Hc Hm. unfold classify, test in Hc. rewrite Hm in Hc.
    destruct (numberRe s); [discriminate|]. simpl in Hc.
    destruct (systemMentionRe s); [discriminate|].
    destruct (isVKUrl s); discriminate.
  - intros c r Hc. unfold systemMentionRe. simpl leftmost.
    unfold systemMention_at, systemMention_alt1.
    assert (not_pipe c = true) as Hp
      by (unfold not_pipe; apply negb_true_iff, Ascii.eqb_neq, Hc).
    simpl span. rewrite Hp.
    destruct (span not_pipe r) as [g t]. reflexivity.
Qed.

Lemma C1_outcomes_of_resolve_witness :
  falsy (RawString "vk.com/durov") = false /\
  (forall query reported object_id,
     api_answer "user" 1 query = ResponseObject reported object_id ->
     0 <= object_id) /\
  match resolve_with_helpers (api_answer "user" 1) WhatwgURL.parse
          (RawString "vk.com/durov") with
  | Return r => 0 <= id r
  | Throw _ => False
  end.
Proof.
  assert (falsy (RawString "vk.com/durov") = false) as H1 by reflexivity.
  assert (forall query reported object_id,
            api_answer "user" 1 query = ResponseObject reported object_id ->
            0 <= object_id) as H2
    by (intros query reported object_id [= _ <-]; lia).
  split; [exact H1|]. split; [exact H2|].
  exact (proj1 (C1_outcomes_of_resolve (api_answer "user" 1) WhatwgURL.parse
                  (RawString "vk.com/durov") H1 H2)).
Defined.

(** C1: a platform URL with a port that is no number leaves [resolve] with a
    [TypeError], which is none of the three error kinds; and [durov]] is
    sent to the mention resolver, where the match of [systemMentionRe] has
    no capture group 1, so that [undefined] is what gets resolved. *)
Lemma C1_counterexample :
  falsy (RawString "vk.com:x") = false /\
  resolve_with_helpers api_no_match WhatwgURL.parse (RawString "vk.com:x")
    = Throw TypeError /\
  classify "durov]" = MentionStage /\
  isUserMentionRe "durov]" = false /\
  systemMentionRe "durov]" = Some (None, Some "durov") /\
  resolve_with_helpers api_no_match WhatwgURL.parse (RawString "durov]")
    = resolveScreenName_with_helpers api_no_match None.
Proof. repeat split. Qed.

(** ** The classifier *)

Lemma exists_char_split (p : ascii -> bool) (s : string) :
  exists_char p s = true <->
  exists pre c post, s = pre ++ String c post /\ p c = true.
Proof.
  split.
  - induction s as [|d t IH]; simpl; [discriminate|].
    destruct (p d) eqn:Hd.
    + intros _. now exists "", d, t.
    + simpl. intros (pre & c & post & -> & Hc)%IH.
      now exists (String d pre), c, post.
  - intros (pre & c & post & -> & Hc).
    induction pre as [|d pre IH]; simpl.
    + now rewrite Hc.
    + rewrite IH. apply orb_true_r.
Qed.

(** C4, on the code.  [resolve] dispatches a truthy input on [classify]
    of its trimmed text: a signed run of digits first, then a mention, then
    a platform URL, then a screen name.  The mention test is not the one
    the claim states: a text is sent to the mention resolver when it holds
    a sigil anywhere, or [systemMentionRe] matches somewhere; [a@b] and
    [vk.com/@durov], which do not begin with a sigil and hold no bracket,
    go to the mention resolver, which drops their first character. *)
Theorem C4_sigil_anywhere
    (att own : RegExp OwnerGroups) (res : RegExp PlainGroups)
    (api : ScreenNameLookup) (url : URLConstructor)
    (raw : RawResource) (t : string) :
  (classify t = MentionStage <->
   numberRe t = false /\
   ((exists pre c post, t = pre ++ String c post /\ is_sigil c = true) \/
    systemMentionRe t <> None)) /\
  resolve att own res api url raw
    = (if falsy raw then
         Throw (ResourceError INVALID_RESOURCE "Resource is required")
       else
         let resource := trim (String_of_raw raw) in
         match classify resource with
         | NumberStage => resolveNumber att own res api (Number resource)
         | MentionStage => resolveMention att own res api resource
         | UrlStage => resolveUrl att own res api url resource
         | ScreenNameStage => resolveScreenName att own res api (Some resource)
         end) /\
  numberRe "a@b" = false /\
  starts_with_sigil "a@b" = false /\
  systemMentionRe "a@b" = None /\
  classify "a@b" = MentionStage /\
  resolve att own res api url (RawString "a@b")
    = resolveScreenName att own res api (Some "@b") /\
  isVKUrl "vk.com/@durov" = true /\
  starts_with_sigil "vk.com/@durov" = false /\
  classify "vk.com/@durov" = MentionStage /\
  resolve att own res api url (RawString "vk.com/@durov")
    = resolveScreenName att own res api (Some "k.com/@durov").
Proof.
  split.
  - rewrite <- exists_char_split. fold (isUserMentionRe t).
    unfold classify, test. destruct (numberRe t).
    + split; [discriminate|]. intros [? _]; discriminate.
    + destruct (isUserMentionRe t); simpl.
      * split; auto.
      * destruct (systemMentionRe t) eqn:E.
        { split; [|reflexivity].
          intros _. split; [reflexivity|right; discriminate]. }
        split.
        { destruct (isVKUrl t); discriminate. }
        intros [_ [H|H]]; [discriminate|contradiction].
  - split; [apply resolve_classify|]. repeat split.
Qed.

(** ** Platform URLs *)

(** The screen-name resolver applies the two owner-qualified patterns the
    way the URL resolver applies them to the query. *)
Lemma resolveScreenName_owner
    (att own : RegExp OwnerGroups) (res : RegExp PlainGroups)
    (api : ScreenNameLookup) (s : string) :
  test att s || test own s = true ->
  resolveScreenName att own res api (Some s)
    = if test att s then resolveOwnerResource (Some s) att
      else resolveOwnerResource (Some s) own.
Proof.
  unfold resolveScreenName. simpl ToString.
  destruct (test att s); [reflexivity|]. simpl.
  now intros ->.
Qed.

(** C8, on the code.  When the text holds no [http://] or [https://],
    [https://] is put in front of it before it is parsed; a path [/] fails
    with [INVALID_URL] and the message "URL should contain path";
    otherwise the query is matched against the attachment pattern, then
    the owner-embed pattern, with the extraction of the screen-name
    resolver; otherwise the path without its first character is resolved
    as a screen name.  [vk.com] and [https://vk.com/] fail with
    [INVALID_URL], [vk.com/wall-1_2] resolves to
    [{id: 2, ownerId: -1, type: "wall"}].  The scheme test looks for a
    scheme anywhere in the text, not in front of it:
    [vk.com/away.php?to=https://example.com] has no scheme, gets none, and
    [new URL] throws. *)
Theorem C8_url_stage
    (att own : RegExp OwnerGroups) (res : RegExp PlainGroups)
    (api : ScreenNameLookup) (url : URLConstructor)
    (rawResourceUrl : string) (u : URL) :
  test hasProtocolRe rawResourceUrl = false ->
  url ("https://" ++ rawResourceUrl) = Some u ->
  resolveUrl att own res api url rawResourceUrl
    = (if String.eqb (pathname u) "/" then
         Throw (ResourceError INVALID_URL "URL should contain path")
       else if test att (search u) || test own (search u) then
         resolveScreenName att own res api (Some (search u))
       else
         resolveScreenName att own res api (Some (substring1 (pathname u)))) /\
  (String.eqb (pathname u) "/" = false -> test att (search u) = true ->
   resolveUrl att own res api url rawResourceUrl
     = resolveOwnerResource (Some (search u)) att) /\
  resolve_with_helpers api WhatwgURL.parse (RawString "vk.com")
    = Throw (ResourceError INVALID_URL "URL should contain path") /\
  resolve_with_helpers api WhatwgURL.parse (RawString "https://vk.com/")
    = Throw (ResourceError INVALID_URL "URL should contain path") /\
  resolve_with_helpers api WhatwgURL.parse (RawString "vk.com/wall-1_2")
    = Return {| id := 2; ownerId := Some (-1); type := "wall" |} /\
  resolve_with_helpers api WhatwgURL.parse (RawString "vk.com/feed?w=wall-1_2")
    = Return {| id := 2; ownerId := Some (-1); type := "wall" |} /\
  classify "vk.com/away.php?to=https://example.com" = UrlStage /\
  prefix_ci "http" "vk.com/away.php?to=https://example.com" = None /\
  test hasProtocolRe "vk.com/away.php?to=https://example.com" = true /\
  resourceUrl_of "vk.com/away.php?to=https://example.com"
    = "vk.com/away.php?to=https://example.com" /\
  WhatwgURL.parse "vk.com/away.php?to=https://example.com" = None /\
  WhatwgURL.parse "https://vk.com/away.php?to=https://example.com"
    = Some {| pathname := "/away.php"; search := "?to=https://example.com" |} /\
  resolve_with_helpers api WhatwgURL.parse
      (RawString "vk.com/away.php?to=https://example.com")
    = Throw TypeError.
Proof.
  intros Hp Hu.
  assert (resolveUrl att own res api url rawResourceUrl
          = (if String.eqb (pathname u) "/" then
               Throw (ResourceError INVALID_URL "URL should contain path")
             else if test att (search u) then
               resolveOwnerResource (Some (search u)) att
             else if test own (search u) then
               resolveOwnerResource (Some (search u)) own
             else
               resolveScreenName att own res api
                 (Some (substring1 (pathname u))))) as H.
  { unfold resolveUrl. rewrite Hp. cbn [negb]. cbv zeta.
    rewrite Hu. reflexivity. }
  split; [|split].
  - rewrite H. destruct (String.eqb (pathname u) "/"); [reflexivity|].
    destruct (test att (search u) || test own (search u)) eqn:E.
    + rewrite (resolveScreenName_owner att own res api (search u) E).
      destruct (test att (search u)); [reflexivity|]. simpl in E.
      now rewrite E.
    + apply orb_false_iff in E as [-> ->]. reflexivity.
  - intros Hpath Ha. now rewrite H, Hpath, Ha.
  - repeat (split; [reflexivity|]). reflexivity.
Qed.

Lemma C8_url_stage_witness :
  test hasProtocolRe "vk.com/feed?w=wall-1_2" = false /\
  WhatwgURL.parse ("https://" ++ "vk.com/feed?w=wall-1_2")
    = Some {| pathname := "/feed"; search := "?w=wall-1_2" |} /\
  resolveUrl Helpers.parseAttachmentRe Helpers.parseOwnerResourceRe
      Helpers.parseResourceRe api_no_match WhatwgURL.parse
      "vk.com/feed?w=wall-1_2"
    = resolveScreenName_with_helpers api_no_match (Some "?w=wall-1_2").
Proof.
  assert (test hasProtocolRe "vk.com/feed?w=wall-1_2" = false) as H1
    by reflexivity.
  assert (WhatwgURL.parse ("https://" ++ "vk.com/feed?w=wall-1_2")
          = Some {| pathname := "/feed"; search := "?w=wall-1_2" |}) as H2
    by reflexivity.
  split; [exact H1|]. split; [exact H2|].
  exact (proj1 (C8_url_stage Helpers.parseAttachmentRe
                  Helpers.parseOwnerResourceRe Helpers.parseResourceRe
                  api_no_match WhatwgURL.parse "vk.com/feed?w=wall-1_2"
                  {| pathname := "/feed"; search := "?w=wall-1_2" |} H1 H2)).
Defined.

(** * Further properties of the resolver *)

(** ** Where a result and an error come from *)

Lemma resolveOwnerResource_string
    (pattern : RegExp OwnerGroups) (s : string) :
  test pattern s = true ->
  exists r, resolveOwnerResource (Some s) pattern = Return r /\
            ownerId r <> None.
Proof.
  unfold test, resolveOwnerResource.
  destruct (pattern s) as [[[t o] i]|]; [|discriminate].
  intros _. eexists. split; [reflexivity|]. discriminate.
Qed.

Lemma resolveScreenName_string_no_TypeError
    (att own : RegExp OwnerGroups) (res : RegExp PlainGroups)
    (api : ScreenNameLookup) (s : string) :
  resolveScreenName att own res api (Some s) <> Throw TypeError.
Proof.
  unfold resolveScreenName. simpl ToString.
  destruct (test att s) eqn:Ea.
  { destruct (resolveOwnerResource_string att s Ea) as (r & -> & _).
    discriminate. }
  destruct (test own s) eqn:Eo.
  { destruct (resolveOwnerResource_string own s Eo) as (r & -> & _).
    discriminate. }
  unfold test. destruct (res s) as [[p d]|]; [discriminate|].
  destruct (api (Some s)) as [|t i]; [discriminate|].
  destruct (String.eqb t "page"); discriminate.
Qed.

(** X1.  The non-null assertions of the screen-name resolver hold on every
    string, whatever the patterns: resolving a string never ends in a
    [TypeError], and so neither does the numeric resolver. *)
Theorem X1_screen_name_of_string_no_TypeError
    (att own : RegExp OwnerGroups) (res : RegExp PlainGroups)
    (api : ScreenNameLookup) (s : string) (n : Z) :
  resolveScreenName att own res api (Some s) <> Throw TypeError /\
  resolveNumber att own res api n <> Throw TypeError.
Proof.
  split; [|unfold resolveNumber; cbv zeta];
    apply resolveScreenName_string_no_TypeError.
Qed.

Lemma resolveScreenName_ownerId
    (att own : RegExp OwnerGroups) (res : RegExp PlainGroups)
    (api : ScreenNameLookup) (x : option string) (r : IResolvedResource) :
  resolveScreenName att own res api x = Return r -> ownerId r <> None ->
  exists t, (test att t = true /\ resolveOwnerResource (Some t) att = Return r)
         \/ (test own t = true /\ resolveOwnerResource (Some t) own = Return r).
Proof.
  unfold resolveScreenName. destruct x as [s|]; simpl ToString.
  - destruct (test att s) eqn:Ea; [intros H _; exists s; now left|].
    destruct (test own s) eqn:Eo; [intros H _; exists s; now right|].
    destruct (test res s).
    + destruct (res s) as [[p d]|]; [|discriminate].
      intros [= <-] H. now contradiction H.
    + destruct (api (Some s)) as [|t i]; [discriminate|].
      destruct (String.eqb t "page"); intros [= <-] H; now contradiction H.
  - destruct (test att "undefined"); [discriminate|].
    destruct (test own "undefined"); [discriminate|].
    destruct (test res "undefined"); [discriminate|].
    destruct (api None) as [|t i]; [discriminate|].
    destruct (String.eqb t "page"); intros [= <-] H; now contradiction H.
Qed.

(** X2.  An [ownerId] comes from an owner-qualified pattern and from nowhere
    else: when [resolve] returns a resource with an [ownerId], the resource
    is what [resolveOwnerResource] extracts from some text that the
    attachment pattern or the owner-embed pattern matches. *)
Theorem X2_ownerId_provenance
    (att own : RegExp OwnerGroups) (res : RegExp PlainGroups)
    (api : ScreenNameLookup) (url : URLConstructor)
    (raw : RawResource) (r : IResolvedResource) :
  resolve att own res api url raw = Return r -> ownerId r <> None ->
  exists t, (test att t = true /\ resolveOwnerResource (Some t) att = Return r)
         \/ (test own t = true /\ resolveOwnerResource (Some t) own = Return r).
Proof.
  rewrite resolve_classify. destruct (falsy raw); [discriminate|]. cbv zeta.
  destruct (classify _).
  - apply resolveScreenName_ownerId.
  - unfold resolveMention. destruct (isUserMentionRe _).
    + apply resolveScreenName_ownerId.
    + destruct (systemMentionRe _) as [[g ?]|]; [|discriminate].
      apply resolveScreenName_ownerId.
  - unfold resolveUrl. cbv zeta.
    destruct (url _) as [u|]; cbn [bind]; [|discriminate].
    destruct (String.eqb (pathname u) "/"); [discriminate|].
    destruct (test att (search u)) eqn:Ea;
      [intros H _; exists (search u); now left|].
    destruct (test own (search u)) eqn:Eo;
      [intros H _; exists (search u); now right|].
    apply resolveScreenName_ownerId.
  - apply resolveScreenName_ownerId.
Qed.

(** X3.  The URL resolver ends in a [TypeError] exactly when [new URL]
    rejects the text it is given. *)
Theorem X3_resolveUrl_TypeError
    (att own : RegExp OwnerGroups) (res : RegExp PlainGroups)
    (api : ScreenNameLookup) (url : URLConstructor) (rawResourceUrl : string) :
  resolveUrl att own res api url rawResourceUrl = Throw TypeError <->
  url (resourceUrl_of rawResourceUrl) = None.
Proof.
  unfold resolveUrl. cbv zeta. fold (resourceUrl_of rawResourceUrl).
  destruct (url _) as [u|]; cbn [bind]; [|split; reflexivity].
  split; [|discriminate]. intros H. exfalso. revert H.
  destruct (String.eqb (pathname u) "/"); [discriminate|].
  destruct (test att (search u)) eqn:Ea.
  { destruct (resolveOwnerResource_string att _ Ea) as (r & -> & _).
    discriminate. }
  destruct (test own (search u)) eqn:Eo.
  { destruct (resolveOwnerResource_string own _ Eo) as (r & -> & _).
    discriminate. }
  apply resolveScreenName_string_no_TypeError.
Qed.

(** X4.  [resolve] fails with [INVALID_URL] exactly when the input is
    truthy, its trimmed text is classified as a platform URL, and [new URL]
    reads it with the path [/]; the message is then "URL should contain
    path".  The query is not looked at in that case. *)
Theorem X4_INVALID_URL_iff
    (att own : RegExp OwnerGroups) (res : RegExp PlainGroups)
    (api : ScreenNameLookup) (url : URLConstructor)
    (raw : RawResource) (message : string) :
  resolve att own res api url raw = Throw (ResourceError INVALID_URL message)
  <->
  message = "URL should contain path" /\
  falsy raw = false /\
  classify (trim (String_of_raw raw)) = UrlStage /\
  exists u, url (resourceUrl_of (trim (String_of_raw raw))) = Some u /\
            pathname u = "/".
Proof.
  rewrite resolve_classify. destruct (falsy raw).
  { split; [discriminate|]. intros (_ & H & _). discriminate H. }
  cbv zeta. destruct (classify _) eqn:Ec.
  - split; [|intros (_ & _ & H & _); discriminate H].
    intros [H|H]%resolveScreenName_throw; discriminate H.
  - split; [|intros (_ & _ & H & _); discriminate H].
    intros [H|H]%resolveMention_throw; discriminate H.
  - unfold resolveUrl. cbv zeta.
    fold (resourceUrl_of (trim (String_of_raw raw))).
    destruct (url _) as [u|]; cbn [bind].
    + destruct (String.eqb_spec (pathname u) "/") as [Hp|Hp].
      * split.
        { intros [= <-]. repeat split. now exists u. }
        intros (-> & _). reflexivity.
      * split; [|intros (_ & _ & _ & v & [= <-] & Hv); contradiction].
        destruct (test att (search u));
          [intros H%resolveOwnerResource_throw; discriminate H|].
        destruct (test own (search u));
          [intros H%resolveOwnerResource_throw; discriminate H|].
        intros [H|H]%resolveScreenName_throw; discriminate H.
    + split; [discriminate|]. intros (_ & _ & _ & v & H & _). discriminate H.
  - split; [|intros (_ & _ & H & _); discriminate H].
    intros [H|H]%resolveScreenName_throw; discriminate H.
Qed.

Lemma resolveScreenName_not_found
    (att own : RegExp OwnerGroups) (res : RegExp PlainGroups)
    (api : ScreenNameLookup) (x : option string) (message : string) :
  resolveScreenName att own res api x
    = Throw (ResourceError RESOURCE_NOT_FOUND message) ->
  message = "Resource not found" /\ api x = ResponseArray.
Proof.
  unfold resolveScreenName.
  destruct (test att _);
    [intros H%resolveOwnerResource_throw; discriminate H|].
  destruct (test own _);
    [intros H%resolveOwnerResource_throw; discriminate H|].
  destruct (test res _).
  - destruct x as [s|]; [|discriminate].
    destruct (res s) as [[p d]|]; discriminate.
  - destruct (api x) as [|t i]; [now intros [= <-]|].
    destruct (String.eqb t "page"); discriminate.
Qed.

(** X5.  [RESOURCE_NOT_FOUND] is the collaborator's word: when [resolve]
    fails with it, the message is "Resource not found" and the collaborator
    has answered some query with an array.  A collaborator that always
    answers with an object never makes [resolve] fail this way. *)
Theorem X5_RESOURCE_NOT_FOUND_provenance
    (att own : RegExp OwnerGroups) (res : RegExp PlainGroups)
    (api : ScreenNameLookup) (url : URLConstructor)
    (raw : RawResource) (message : string) :
  resolve att own res api url raw
    = Throw (ResourceError RESOURCE_NOT_FOUND message) ->
  message = "Resource not found" /\
  exists query, api query = ResponseArray.
Proof.
  assert (forall x,
            resolveScreenName att own res api x
              = Throw (ResourceError RESOURCE_NOT_FOUND message) ->
            message = "Resource not found" /\
            exists query, api query = ResponseArray) as Hsn.
  { intros x [Hm Hx]%resolveScreenName_not_found. split; [exact Hm|].
    now exists x. }
  rewrite resolve_classify. destruct (falsy raw); [discriminate|]. cbv zeta.
  destruct (classify _).
  - apply Hsn.
  - unfold resolveMention. destruct (isUserMentionRe _); [apply Hsn|].
    destruct (systemMentionRe _) as [[g ?]|]; [apply Hsn|discriminate].
  - unfold resolveUrl. cbv zeta.
    destruct (url _) as [u|]; cbn [bind]; [|discriminate].
    destruct (String.eqb (pathname u) "/"); [discriminate|].
    destruct (test att (search u));
      [intros H%resolveOwnerResource_throw; discriminate H|].
    destruct (test own (search u));
      [intros H%resolveOwnerResource_throw; discriminate H|].
    apply Hsn.
  - apply Hsn.
Qed.

Lemma X5_RESOURCE_NOT_FOUND_provenance_witness :
  resolve_with_helpers api_no_match WhatwgURL.parse (RawString "durov")
    = Throw (ResourceError RESOURCE_NOT_FOUND "Resource not found") /\
  exists query, api_no_match query = ResponseArray.
Proof.
  assert (resolve_with_helpers api_no_match WhatwgURL.parse (RawString "durov")
          = Throw (ResourceError RESOURCE_NOT_FOUND "Resource not found"))
    as H by reflexivity.
  split; [exact H|].
  exact (proj2 (X5_RESOURCE_NOT_FOUND_provenance Helpers.parseAttachmentRe
                  Helpers.parseOwnerResourceRe Helpers.parseResourceRe
                  api_no_match WhatwgURL.parse (RawString "durov")
                  "Resource not found" H)).
Defined.

Lemma X2_ownerId_provenance_witness :
  resolve_with_helpers api_no_match WhatwgURL.parse (RawString "photo-1_2")
    = Return {| id := 2; ownerId := Some (-1); type := "photo" |} /\
  exists t,
    (test Helpers.parseAttachmentRe t = true /\
     resolveOwnerResource (Some t) Helpers.parseAttachmentRe
       = Return {| id := 2; ownerId := Some (-1); type := "photo" |}) \/
    (test Helpers.parseOwnerResourceRe t = true /\
     resolveOwnerResource (Some t) Helpers.parseOwnerResourceRe
       = Return {| id := 2; ownerId := Some (-1); type := "photo" |}).
Proof.
  assert (resolve_with_helpers api_no_match WhatwgURL.parse
            (RawString "photo-1_2")
          = Return {| id := 2; ownerId := Some (-1); type := "photo" |})
    as H by reflexivity.
  split; [exact H|].
  apply (X2_ownerId_provenance Helpers.parseAttachmentRe
           Helpers.parseOwnerResourceRe Helpers.parseResourceRe
           api_no_match WhatwgURL.parse (RawString "photo-1_2") _ H).
  discriminate.
Defined.

(** X6.  The screen-name resolver consults the collaborator only as a
    fallback and only about the text it was given: two collaborators give
    the same result when one of the three patterns matches the text, or when
    they answer alike about that text. *)
Theorem X6_collaborator_only_as_fallback
    (att own : RegExp OwnerGroups) (res : RegExp PlainGroups)
    (api1 api2 : ScreenNameLookup) (x : option string) :
  test att (ToString x) || test own (ToString x) || test res (ToString x)
    = true \/ api1 x = api2 x ->
  resolveScreenName att own res api1 x = resolveScreenName att own res api2 x.
Proof.
  unfold resolveScreenName.
  destruct (test att _); [reflexivity|].
  destruct (test own _); [reflexivity|].
  destruct (test res _); [reflexivity|].
  intros [H|H]; [discriminate H|]. now rewrite H.
Qed.

Lemma X6_collaborator_only_as_fallback_witness :
  resolveScreenName_with_helpers api_no_match (Some "club15")
    = resolveScreenName_with_helpers (api_answer "user" 1) (Some "club15").
Proof.
  apply (X6_collaborator_only_as_fallback Helpers.parseAttachmentRe
           Helpers.parseOwnerResourceRe Helpers.parseResourceRe
           api_no_match (api_answer "user" 1) (Some "club15")).
  left. reflexivity.
Defined.

(** X7.  What comes back from the collaborator: when no pattern matches
    and the screen-name resolver returns a resource, the collaborator has
    answered with an object whose [object_id] is the [id]; the resource has
    no [ownerId], and its type is the reported one, except that [page]
    never comes out: it is turned into [group]. *)
Theorem X7_remote_result_shape
    (att own : RegExp OwnerGroups) (res : RegExp PlainGroups)
    (api : ScreenNameLookup) (x : option string) (r : IResolvedResource) :
  test att (ToString x) = false -> test own (ToString x) = false ->
  test res (ToString x) = false ->
  resolveScreenName att own res api x = Return r ->
  ownerId r = None /\
  type r <> "page" /\
  exists reported,
    api x = ResponseObject reported (id r) /\
    (type r = reported \/ (reported = "page" /\ type r = "group")).
Proof.
  intros Ha Ho Hr. unfold resolveScreenName. rewrite Ha, Ho, Hr.
  destruct (api x) as [|t i]; [discriminate|].
  destruct (String.eqb_spec t "page") as [->|Ht]; intros [= <-]; simpl.
  - split; [reflexivity|]. split; [discriminate|].
    exists "page". split; [reflexivity|]. now right.
  - split; [reflexivity|]. split; [intros [= E]; contradiction|].
    exists t. split; [reflexivity|]. now left.
Qed.

Lemma X7_remote_result_shape_witness :
  type {| id := 42; ownerId := None; type := "group" |} <> "page" /\
  exists reported,
    api_answer "page" 42 (Some "durov") = ResponseObject reported 42.
Proof.
  assert (test Helpers.parseAttachmentRe "durov" = false) as H1 by reflexivity.
  assert (test Helpers.parseOwnerResourceRe "durov" = false) as H2
    by reflexivity.
  assert (test Helpers.parseResourceRe "durov" = false) as H3 by reflexivity.
  assert (resolveScreenName_with_helpers (api_answer "page" 42) (Some "durov")
          = Return {| id := 42; ownerId := None; type := "group" |}) as H4
    by reflexivity.
  destruct (X7_remote_result_shape Helpers.parseAttachmentRe
              Helpers.parseOwnerResourceRe Helpers.parseResourceRe
              (api_answer "page" 42) (Some "durov") _ H1 H2 H3 H4)
    as (_ & Hp & reported & Hr & _).
  split; [exact Hp|]. exists reported. exact Hr.
Defined.

(** ** The bracket pattern *)

Lemma test_leftmost {A} (f : string -> option A) c r :
  test (leftmost f) (String c r)
    = test f (String c r) || test (leftmost f) r.
Proof. unfold test. simpl. destruct (f (String c r)); reflexivity. Qed.

Lemma systemMention_alt1_test c r :
  test systemMention_alt1 (String c r)
    = Ascii.eqb c "[" &&
      match r with String b _ => not_pipe b | "" => false end.
Proof.
  unfold test. destruct (Ascii.eqb_spec c "[") as [->|Hc].
  - unfold systemMention_alt1. destruct r as [|b r]; [reflexivity|].
    simpl. destruct (not_pipe b); [|reflexivity].
    destruct (span not_pipe r). reflexivity.
  - revert Hc. unfold systemMention_alt1.
    ascii_cases c; try reflexivity. intros H. now contradiction H.
Qed.

Lemma systemMention_alt2_test c r :
  test systemMention_alt2 (String c r)
    = not_pipe_bracket c && (head_is "]" r || test systemMention_alt2 r).
Proof.
  unfold test, systemMention_alt2. simpl span.
  destruct (not_pipe_bracket c); [|reflexivity]. simpl.
  pose proof (span_app not_pipe_bracket r) as Happ.
  pose proof (span_fst_forall not_pipe_bracket r) as Hall.
  destruct (span not_pipe_bracket r) as [g t]. simpl in Happ, Hall.
  destruct g as [|d g]; simpl in *.
  - subst t. destruct r as [|b r]; [reflexivity|]. simpl.
    destruct (Ascii.eqb_spec b "]") as [->|Hb]; [reflexivity|].
    revert Hb. ascii_cases b; try reflexivity; intros H; now contradiction H.
  - subst r. simpl.
    apply andb_true_iff in Hall as [Hd _].
    assert (Ascii.eqb d "]" = false) as ->.
    { destruct (Ascii.eqb_spec d "]") as [->|]; [discriminate Hd|reflexivity]. }
    simpl. destruct t as [|b t]; [reflexivity|].
    destruct (Ascii.eqb_spec b "]") as [->|Hb]; [reflexivity|].
    revert Hb. ascii_cases b; try reflexivity; intros H; now contradiction H.
Qed.

Lemma systemMention_at_test s :
  test systemMention_at s
    = test systemMention_alt1 s || test systemMention_alt2 s.
Proof.
  unfold test, systemMention_at.
  destruct (systemMention_alt1 s); [reflexivity|].
  destruct (systemMention_alt2 s); reflexivity.
Qed.

Lemma systemMentionRe_pairs s :
  test systemMentionRe s = exists_pair mention_pair s.
Proof.
  unfold systemMentionRe.
  induction s as [|c r IH]; [reflexivity|].
  rewrite test_leftmost, systemMention_at_test.
  rewrite systemMention_alt1_test, systemMention_alt2_test.
  destruct r as [|b r'].
  - rewrite andb_false_r. destruct (not_pipe_bracket c); reflexivity.
  - assert (test systemMention_alt2 (String b r') = true ->
            exists_pair mention_pair (String b r') = true) as Himp.
    { intros H. rewrite <- IH, test_leftmost, systemMention_at_test, H.
      now rewrite orb_true_r. }
    rewrite IH.
    change (exists_pair mention_pair (String c (String b r')))
      with (mention_pair c b || exists_pair mention_pair (String b r')).
    set (E := exists_pair mention_pair (String b r')) in *.
    unfold mention_pair, head_is.
    destruct (Ascii.eqb c "[" && not_pipe b); [reflexivity|].
    destruct (not_pipe_bracket c); [|reflexivity].
    destruct (Ascii.eqb b "]"); [reflexivity|].
    destruct (test systemMention_alt2 (String b r')); [|reflexivity].
    rewrite (Himp eq_refl). reflexivity.
Qed.

(** X8.  What [systemMentionRe] accepts: the pattern matches a text exactly
    when the text holds an opening bracket followed by a character other
    than the pipe, or a closing bracket preceded by a character other than
    the pipe and the closing bracket.  One bracket is enough, whichever, and
    no pairing of brackets is asked for. *)
Theorem X8_systemMentionRe_accepts (s : string) :
  test systemMentionRe s = exists_pair mention_pair s.
Proof. apply systemMentionRe_pairs. Qed.

Lemma leftmost_some_inv {A} (f : string -> option A) (q : ascii -> bool) s m :
  forall_chars q s = true -> leftmost f s = Some m ->
  exists t, forall_chars q t = true /\ f t = Some m.
Proof.
  induction s as [|c r IH]; simpl.
  - intros _. destruct (f "") eqn:E; [|discriminate].
    intros [= <-]. now exists "".
  - intros Hs. destruct (f (String c r)) eqn:E.
    + intros [= <-]. exists (String c r). now split.
    + apply andb_true_iff in Hs as [_ Hr]. exact (IH Hr).
Qed.

Lemma systemMentionRe_group1_undefined s m :
  forall_chars not_opening_bracket s = true ->
  systemMentionRe s = Some m -> fst m = None.
Proof.
  intros Hs Hm.
  destruct (leftmost_some_inv _ _ _ _ Hs Hm) as (t & Ht & E).
  unfold systemMention_at in E.
  assert (systemMention_alt1 t = None) as H1.
  { destruct t as [|c r]; [reflexivity|].
    pose proof (systemMention_alt1_test c r) as H. unfold test in H.
    simpl in Ht. apply andb_true_iff in Ht as [Hc _].
    unfold not_opening_bracket in Hc. apply negb_true_iff in Hc.
    rewrite Hc, andb_false_l in H.
    destruct (systemMention_alt1 (String c r)); [discriminate H|reflexivity]. }
  rewrite H1 in E. destruct (systemMention_alt2 t); [|discriminate].
  now injection E as <-.
Qed.

Lemma exists_pair_none (p : ascii -> ascii -> bool) (q : ascii -> bool) s :
  (forall a b, q a = true -> q b = true -> p a b = false) ->
  forall_chars q s = true -> exists_pair p s = false.
Proof.
  intros Hp. induction s as [|a r IH]; [reflexivity|].
  intros Hs. simpl in Hs. apply andb_true_iff in Hs as [Ha Hr].
  destruct r as [|b r']; [reflexivity|].
  change (exists_pair p (String a (String b r')))
    with (p a b || exists_pair p (String b r')).
  rewrite (IH Hr). simpl in Hr. apply andb_true_iff in Hr as [Hb _].
  now rewrite (Hp a b Ha Hb).
Qed.

Lemma sign_or_digit_facts c :
  sign_or_digit c = true ->
  is_sigil c = false /\ Ascii.eqb c "[" = false /\ Ascii.eqb c "]" = false /\
  eqb_ci "h" c = false /\ eqb_ci "m" c = false /\ eqb_ci "v" c = false.
Proof. ascii_cases c; vm_compute; intuition congruence. Qed.

Lemma numberRe_chars s :
  numberRe s = true -> forall_chars sign_or_digit s = true.
Proof.
  destruct s as [|c r]; [discriminate|].
  intros H.
  assert (forall t, digits1 t = true -> forall_chars sign_or_digit t = true)
    as Hd.
  { intros t Ht. apply digits1_forall in Ht. revert Ht.
    apply forall_chars_impl. intros d Hd. unfold sign_or_digit.
    rewrite Hd. apply orb_true_r. }
  destruct (Ascii.eqb_spec c "-") as [->|Hc].
  - simpl in H. simpl. now apply Hd.
  - apply Hd. revert Hc H. clear. unfold numberRe.
    ascii_cases c; try (intros _ H; exact H). intros H. now contradiction H.
Qed.

Lemma prefix_ci_cons a p c r :
  prefix_ci (String a p) (String c r)
    = if eqb_ci a c then prefix_ci p r else None.
Proof. reflexivity. Qed.

(** A text is no platform URL unless it starts with [h], [m] or [v], in
    either case. *)
Lemma isVKUrl_head c r :
  eqb_ci "h" c = false -> eqb_ci "m" c = false -> eqb_ci "v" c = false ->
  isVKUrl (String c r) = false.
Proof.
  intros Hh Hm Hv. unfold isVKUrl, after_scheme, after_mobile, test.
  rewrite (prefix_ci_cons "h"), Hh. cbn [app existsb].
  rewrite (prefix_ci_cons "m"), Hm. cbn [app existsb].
  rewrite (prefix_ci_cons "v"), Hv. reflexivity.
Qed.

Lemma numberRe_exclusive (s : string) :
  numberRe s = true ->
  isUserMentionRe s = false /\
  test systemMentionRe s = false /\
  isVKUrl s = false /\
  classify s = NumberStage.
Proof.
  intros H. pose proof (numberRe_chars s H) as Hc.
  split; [|split; [|split]].
  - revert Hc. apply exists_char_none. intros c Hd.
    now apply sign_or_digit_facts in Hd.
  - rewrite systemMentionRe_pairs. revert Hc. apply exists_pair_none.
    intros a b Ha Hb. unfold mention_pair.
    apply sign_or_digit_facts in Ha as (_ & -> & _).
    apply sign_or_digit_facts in Hb as (_ & _ & -> & _).
    simpl. apply andb_false_r.
  - destruct s as [|c r]; [reflexivity|].
    simpl in Hc. apply andb_true_iff in Hc as [Hc _].
    apply sign_or_digit_facts in Hc as (_ & _ & _ & Hh & Hm & Hv).
    now apply isVKUrl_head.
  - unfold classify. now rewrite H.
Qed.

(** X9.  A signed run of digits is nothing else: it holds no sigil, the
    bracket pattern does not match it and it is no platform URL.  So a
    number is classified as a number wherever its test stands among the
    four. *)
Theorem X9_number_is_nothing_else (s : string) :
  numberRe s = true ->
  isUserMentionRe s = false /\
  test systemMentionRe s = false /\
  isVKUrl s = false /\
  classify s = NumberStage.
Proof. apply numberRe_exclusive. Qed.

Lemma X9_number_is_nothing_else_witness :
  numberRe "-123" = true /\ isVKUrl "-123" = false.
Proof.
  assert (numberRe "-123" = true) as H by reflexivity.
  split; [exact H|].
  exact (proj1 (proj2 (proj2 (X9_number_is_nothing_else "-123" H)))).
Defined.

(** X10.  A text without a sigil and without an opening bracket that the
    bracket pattern matches (it holds a closing bracket after an ordinary
    character) is classified as a mention, the match has no capture
    group 1, and what is resolved is [undefined]: the text itself is
    lost. *)
Theorem X10_closing_bracket_resolves_undefined
    (att own : RegExp OwnerGroups) (res : RegExp PlainGroups)
    (api : ScreenNameLookup) (url : URLConstructor) (s : string) :
  isUserMentionRe (trim s) = false ->
  forall_chars not_opening_bracket (trim s) = true ->
  test systemMentionRe (trim s) = true ->
  classify (trim s) = MentionStage /\
  resolveMention att own res api (trim s)
    = resolveScreenName att own res api None /\
  resolve att own res api url (RawString s)
    = resolveScreenName att own res api None.
Proof.
  intros Hm Hb Ht.
  assert (numberRe (trim s) = false) as Hn.
  { destruct (numberRe (trim s)) eqn:E; [|reflexivity].
    apply numberRe_exclusive in E as (_ & E & _). congruence. }
  assert (classify (trim s) = MentionStage) as Hc
    by (unfold classify; now rewrite Hn, Hm, Ht).
  assert (resolveMention att own res api (trim s)
          = resolveScreenName att own res api None) as Hr.
  { unfold resolveMention. rewrite Hm. unfold test in Ht.
    destruct (systemMentionRe (trim s)) as [[g1 g2]|] eqn:E; [|discriminate].
    now rewrite (systemMentionRe_group1_undefined _ _ Hb E : g1 = None). }
  split; [exact Hc|]. split; [exact Hr|].
  rewrite resolve_classify. simpl String_of_raw.
  destruct s as [|c r]; [discriminate Ht|].
  simpl falsy. cbv iota zeta. now rewrite Hc.
Qed.

Lemma X10_closing_bracket_resolves_undefined_witness :
  isUserMentionRe (trim " durov] ") = false /\
  forall_chars not_opening_bracket (trim " durov] ") = true /\
  test systemMentionRe (trim " durov] ") = true /\
  resolve_with_helpers api_no_match WhatwgURL.parse (RawString " durov] ")
    = resolveScreenName_with_helpers api_no_match None.
Proof.
  assert (isUserMentionRe (trim " durov] ") = false) as H1 by reflexivity.
  assert (forall_chars not_opening_bracket (trim " durov] ") = true) as H2
    by reflexivity.
  assert (test systemMentionRe (trim " durov] ") = true) as H3 by reflexivity.
  split; [exact H1|]. split; [exact H2|]. split; [exact H3|].
  exact (proj2 (proj2 (X10_closing_bracket_resolves_undefined
           Helpers.parseAttachmentRe Helpers.parseOwnerResourceRe
           Helpers.parseResourceRe api_no_match WhatwgURL.parse
           " durov] " H1 H2 H3))).
Defined.

(** ** Numbers as text *)

(** X11.  A text that trims to a signed run of digits that reads as a
    safe integer is resolved as that number: like the integer itself when
    the value is not zero (leading zeros and white space make no
    difference), and as [id0] when it is zero, [-0] included; the text that
    [String] gives for a non-zero safe integer resolves as the integer
    does. *)
Theorem X11_numeric_text
    (att own : RegExp OwnerGroups) (res : RegExp PlainGroups)
    (api : ScreenNameLookup) (url : URLConstructor) (s : string) :
  numberRe (trim s) = true -> safe_integer (Number (trim s)) ->
  resolve att own res api url (RawString s)
    = resolveNumber att own res api (Number (trim s)) /\
  (Number (trim s) <> 0 ->
   resolve att own res api url (RawString s)
     = resolve att own res api url (RawNumber (Number (trim s)))) /\
  (Number (trim s) = 0 ->
   resolve att own res api url (RawString s)
     = resolveScreenName att own res api (Some "id0")) /\
  (forall n, n <> 0 -> safe_integer n ->
     resolve att own res api url (RawString (Number_toString n))
       = resolve att own res api url (RawNumber n)).
Proof.
  intros H Hsafe.
  assert (forall t, numberRe (trim t) = true ->
            resolve att own res api url (RawString t)
              = resolveNumber att own res api (Number (trim t))) as Hnum.
  { intros t Ht. unfold resolve. simpl String_of_raw.
    destruct t as [|c r]; [discriminate Ht|].
    simpl falsy. cbv iota zeta. now rewrite Ht. }
  split; [exact (Hnum s H)|]. split; [|split].
  - intros Hn. rewrite (Hnum s H). symmetry. now apply resolve_RawNumber.
  - intros Hz. rewrite (Hnum s H), Hz. reflexivity.
  - intros n Hn Hsn.
    assert (trim (Number_toString n) = Number_toString n) as Ht
      by apply trim_id, Number_toString_not_white_space.
    rewrite Hnum by (rewrite Ht; apply numberRe_Number_toString).
    rewrite Ht, Number_toString_roundtrip. symmetry.
    now apply resolve_RawNumber.
Qed.

Lemma X11_numeric_text_witness :
  numberRe (trim " -007 ") = true /\
  safe_integer (Number (trim " -007 ")) /\
  resolve_with_helpers api_no_match WhatwgURL.parse (RawString " -007 ")
    = resolveNumber Helpers.parseAttachmentRe Helpers.parseOwnerResourceRe
        Helpers.parseResourceRe api_no_match (Number (trim " -007 ")).
Proof.
  assert (numberRe (trim " -007 ") = true) as H by reflexivity.
  assert (safe_integer (Number (trim " -007 "))) as Hs
    by (vm_compute; discriminate).
  split; [exact H|]. split; [exact Hs|].
  exact (proj1 (X11_numeric_text Helpers.parseAttachmentRe
                  Helpers.parseOwnerResourceRe Helpers.parseResourceRe
                  api_no_match WhatwgURL.parse " -007 " H Hs)).
Defined.

(** ** Platform URLs with and without a scheme *)

Lemma test_leftmost_false {A} (f : string -> option A) s :
  test (leftmost f) s = false -> f s = None.
Proof.
  unfold test. destruct s as [|c r]; simpl; destruct (f _); congruence.
Qed.

Lemma after_scheme_without_protocol t :
  test hasProtocolRe t = false -> after_scheme t = [t].
Proof.
  intros H%test_leftmost_false. unfold hasProtocol_at in H.
  unfold after_scheme. destruct (prefix_ci "http" t) as [r|]; [|reflexivity].
  destruct (prefix_ci "s://" r); [discriminate H|].
  destruct (prefix_ci "://" r); [discriminate H|]. reflexivity.
Qed.

Lemma url_head_facts c :
  eqb_ci "h" c || eqb_ci "m" c || eqb_ci "v" c = true ->
  Ascii.eqb c "]" = false /\ is_alpha c = true.
Proof. ascii_cases c; vm_compute; intuition congruence. Qed.

Lemma isVKUrl_head_inv c r :
  isVKUrl (String c r) = true ->
  eqb_ci "h" c || eqb_ci "m" c || eqb_ci "v" c = true.
Proof.
  intros H.
  destruct (eqb_ci "h" c) eqn:Hh; [reflexivity|].
  destruct (eqb_ci "m" c) eqn:Hm; [reflexivity|].
  destruct (eqb_ci "v" c) eqn:Hv; [reflexivity|].
  now rewrite (isVKUrl_head c r Hh Hm Hv) in H.
Qed.

Lemma classify_UrlStage t :
  classify t = UrlStage ->
  numberRe t = false /\ isUserMentionRe t = false /\
  test systemMentionRe t = false /\ isVKUrl t = true.
Proof.
  unfold classify. destruct (numberRe t); [discriminate|].
  destruct (isUserMentionRe t); [discriminate|].
  destruct (test systemMentionRe t); [discriminate|].
  destruct (isVKUrl t); [auto|discriminate].
Qed.

(** Putting [https://] in front of a scheme-less platform URL leaves it a
    platform URL. *)
Lemma classify_with_scheme t :
  classify t = UrlStage -> test hasProtocolRe t = false ->
  classify ("https://" ++ t) = UrlStage.
Proof.
  intros (Hn & Hm & Hs & Hu)%classify_UrlStage Hp.
  destruct t as [|c r]; [discriminate Hu|].
  pose proof (isVKUrl_head_inv c r Hu) as Hc.
  apply url_head_facts in Hc as [Hc _].
  unfold classify.
  assert (numberRe ("https://" ++ String c r) = false) as ->
    by (apply numberRe_alpha; reflexivity).
  assert (isUserMentionRe ("https://" ++ String c r) = false) as ->
    by exact Hm.
  assert (test systemMentionRe ("https://" ++ String c r) = false) as ->.
  { rewrite systemMentionRe_pairs in Hs |- *.
    change (exists_pair mention_pair ("https://" ++ String c r))
      with (Ascii.eqb c "]" || exists_pair mention_pair (String c r)).
    now rewrite Hc, Hs. }
  assert (isVKUrl ("https://" ++ String c r) = true) as ->; [|reflexivity].
  unfold isVKUrl in Hu |- *.
  rewrite (after_scheme_without_protocol _ Hp) in Hu.
  cbn [existsb] in Hu. rewrite orb_false_r in Hu.
  change (after_scheme ("https://" ++ String c r))
    with [String c r; "https://" ++ String c r].
  cbn [existsb]. now rewrite Hu.
Qed.

Lemma trim_with_scheme s :
  trim s <> "" -> trim ("https://" ++ trim s) = "https://" ++ trim s.
Proof.
  intros H. unfold trim at 1.
  change (trimStart ("https://" ++ trim s)) with ("https://" ++ trim s).
  rewrite trimEnd_app; unfold trim; rewrite trimEnd_idem;
    [reflexivity|exact H].
Qed.

(** X12.  The scheme is optional: a text classified as a platform URL that
    holds no [http://] or [https://] resolves exactly as the same text with
    [https://] in front of it. *)
Theorem X12_scheme_is_optional
    (att own : RegExp OwnerGroups) (res : RegExp PlainGroups)
    (api : ScreenNameLookup) (url : URLConstructor) (s : string) :
  classify (trim s) = UrlStage -> test hasProtocolRe (trim s) = false ->
  resolveUrl att own res api url (trim s)
    = resolveUrl att own res api url ("https://" ++ trim s) /\
  resolve att own res api url (RawString s)
    = resolve att own res api url (RawString ("https://" ++ trim s)).
Proof.
  intros Hc Hp.
  assert (resolveUrl att own res api url (trim s)
          = resolveUrl att own res api url ("https://" ++ trim s)) as Hu.
  { unfold resolveUrl. rewrite Hp. reflexivity. }
  split; [exact Hu|].
  assert (trim s <> "") as Hne by (intros E; rewrite E in Hc; discriminate Hc).
  rewrite !resolve_classify. unfold String_of_raw.
  rewrite (trim_with_scheme s Hne), (classify_with_scheme _ Hc Hp), Hc.
  change (falsy (RawString ("https://" ++ trim s))) with false.
  destruct s as [|c r]; [now contradiction Hne|]. exact Hu.
Qed.

Lemma X12_scheme_is_optional_witness :
  classify (trim " m.vk.com/durov") = UrlStage /\
  test hasProtocolRe (trim " m.vk.com/durov") = false /\
  resolve_with_helpers api_no_match WhatwgURL.parse
      (RawString " m.vk.com/durov")
    = resolve_with_helpers api_no_match WhatwgURL.parse
        (RawString ("https://" ++ trim " m.vk.com/durov")).
Proof.
  assert (classify (trim " m.vk.com/durov") = UrlStage) as H1 by reflexivity.
  assert (test hasProtocolRe (trim " m.vk.com/durov") = false) as H2
    by reflexivity.
  split; [exact H1|]. split; [exact H2|].
  exact (proj2 (X12_scheme_is_optional Helpers.parseAttachmentRe
                  Helpers.parseOwnerResourceRe Helpers.parseResourceRe
                  api_no_match WhatwgURL.parse " m.vk.com/durov" H1 H2)).
Defined.

Lemma span_whole p s : forall_chars p s = true -> span p s = (s, "").
Proof.
  induction s as [|d t IH]; simpl; [reflexivity|].
  intros [Hd Ht]%andb_true_iff. now rewrite Hd, (IH Ht).
Qed.

Lemma plain_url_chars c :
  plain c = true ->
  WhatwgURL.not_authority_end c = true /\ WhatwgURL.not_colon c = true.
Proof. ascii_cases c; vm_compute; intuition congruence. Qed.

(** X13.  The domain is not delimited: [vk.com] followed by any letters and
    digits is classified as a platform URL and goes to the URL resolver,
    never to the screen-name lookup; read by the reference parser it is a
    bare host, so that [resolve] fails with [INVALID_URL]. *)
Theorem X13_domain_is_not_delimited
    (att own : RegExp OwnerGroups) (res : RegExp PlainGroups)
    (api : ScreenNameLookup) (url : URLConstructor) (rest : string) :
  forall_chars plain rest = true ->
  classify ("vk.com" ++ rest) = UrlStage /\
  resolve att own res api url (RawString ("vk.com" ++ rest))
    = resolveUrl att own res api url ("vk.com" ++ rest) /\
  resolve att own res api WhatwgURL.parse (RawString ("vk.com" ++ rest))
    = Throw (ResourceError INVALID_URL "URL should contain path").
Proof.
  intros Hr.
  assert (classify ("vk.com" ++ rest) = UrlStage) as Hc.
  { unfold classify.
    assert (numberRe ("vk.com" ++ rest) = false) as ->
      by (apply numberRe_alpha; reflexivity).
    assert (isUserMentionRe ("vk.com" ++ rest) = false) as ->
      by (exact (isUserMentionRe_plain rest Hr)).
    assert (test systemMentionRe ("vk.com" ++ rest) = false) as ->.
    { unfold test. rewrite systemMentionRe_no_bracket; [reflexivity|].
      rewrite forall_chars_app. simpl.
      revert Hr. apply forall_chars_impl, plain_no_bracket. }
    reflexivity. }
  assert (trim ("vk.com" ++ rest) = "vk.com" ++ rest) as Ht.
  { apply trim_id. rewrite forall_chars_app. simpl.
    revert Hr. apply forall_chars_impl, plain_not_white_space. }
  assert (forall u : URLConstructor,
            resolve att own res api u (RawString ("vk.com" ++ rest))
              = resolveUrl att own res api u ("vk.com" ++ rest)) as Hres.
  { intros u. rewrite resolve_classify. unfold String_of_raw.
    change (falsy (RawString ("vk.com" ++ rest))) with false.
    cbv iota zeta. now rewrite Ht, Hc. }
  split; [exact Hc|]. split; [apply Hres|].
  rewrite Hres. unfold resolveUrl.
  assert (test hasProtocolRe ("vk.com" ++ rest) = false) as ->.
  { unfold test, hasProtocolRe.
    assert (leftmost hasProtocol_at rest = None) as Hl.
    { revert Hr. apply leftmost_none_inv. intros t Ht'.
      unfold hasProtocol_at. destruct (prefix_ci "http" t) as [r|] eqn:E;
        [|reflexivity].
      pose proof (prefix_ci_forall plain _ _ _ E Ht') as Hr'.
      now rewrite (prefix_ci_plain_none "s://" r Hr' eq_refl),
        (prefix_ci_plain_none "://" r Hr' eq_refl). }
    simpl. now rewrite Hl. }
  cbv zeta. cbn [negb].
  assert (WhatwgURL.parse ("https://" ++ "vk.com" ++ rest)
          = Some {| pathname := "/"; search := "" |}) as ->;
    [|reflexivity].
  unfold WhatwgURL.parse.
  change (WhatwgURL.scheme_of ("https://" ++ "vk.com" ++ rest))
    with (Some ("https", "//" ++ "vk.com" ++ rest)).
  cbv iota beta.
  change (snd (span WhatwgURL.is_slash ("//" ++ "vk.com" ++ rest)))
    with ("vk.com" ++ rest).
  assert (span WhatwgURL.not_authority_end ("vk.com" ++ rest)
          = ("vk.com" ++ rest, "")) as ->.
  { apply span_whole. simpl. revert Hr.
    apply forall_chars_impl. intros c Hc'. now apply plain_url_chars. }
  unfold WhatwgURL.valid_authority.
  assert (span WhatwgURL.not_colon ("vk.com" ++ rest)
          = ("vk.com" ++ rest, "")) as ->.
  { apply span_whole. simpl. revert Hr.
    apply forall_chars_impl. intros c Hc'. now apply plain_url_chars. }
  reflexivity.
Qed.

Lemma X13_domain_is_not_delimited_witness :
  forall_chars plain "munity" = true /\
  classify ("vk.com" ++ "munity") = UrlStage.
Proof.
  assert (forall_chars plain "munity" = true) as H by reflexivity.
  split; [exact H|].
  exact (proj1 (X13_domain_is_not_delimited Helpers.parseAttachmentRe
                  Helpers.parseOwnerResourceRe Helpers.parseResourceRe
                  api_no_match WhatwgURL.parse "munity" H)).
Defined.

(** ** The type of a locally resolved resource *)

Lemma lower_char_not_upper c : not_upper_char (lower_char c) = true.
Proof. ascii_cases c; reflexivity. Qed.

Lemma toLowerCase_no_upper_case s : no_upper_case (toLowerCase s) = true.
Proof.
  unfold no_upper_case. induction s as [|c r IH]; simpl; [reflexivity|].
  now rewrite lower_char_not_upper, IH.
Qed.

Lemma removeSearchParam_at_forall q s rest :
  removeSearchParam_at s = Some rest ->
  forall_chars q s = true -> forall_chars q rest = true.
Proof.
  destruct s as [|c r]; [discriminate|]. simpl.
  destruct (Ascii.eqb c "?" || Ascii.eqb c "&"); [|discriminate].
  intros H [_ Hr]%andb_true_iff.
  pose proof (span_snd_forall not_equals q r Hr) as Ht.
  destruct (span not_equals r) as [g t]; simpl in Ht.
  destruct (is_empty g); [discriminate|].
  destruct t as [|d t']; [discriminate|].
  simpl in Ht. apply andb_true_iff in Ht as [_ Ht].
  revert H. clear - Ht. ascii_cases d; try discriminate.
  now intros [= <-].
Qed.

Lemma replace_removeSearchParam_cons c r :
  replace_removeSearchParam (String c r)
    = match removeSearchParam_at (String c r) with
      | Some rest => rest
      | None => String c (replace_removeSearchParam r)
      end.
Proof. reflexivity. Qed.

(** Removing the search parameter keeps a text within its class. *)
Lemma replace_removeSearchParam_forall q s :
  forall_chars q s = true ->
  forall_chars q (replace_removeSearchParam s) = true.
Proof.
  induction s as [|c r IH]; [intros _; reflexivity|].
  intros Hs. rewrite replace_removeSearchParam_cons.
  destruct (removeSearchParam_at (String c r)) as [rest|] eqn:E.
  - exact (removeSearchParam_at_forall q _ _ E Hs).
  - simpl in Hs |- *. apply andb_true_iff in Hs as [Hc Hr].
    now rewrite Hc, (IH Hr).
Qed.

Lemma enumResourceTypes_value key value :
  enumResourceTypes key = Some value ->
  match value with
  | TypeString t => no_upper_case t = true
  | TypeInherited name => name = key /\ In name Object_prototype_keys
  end.
Proof.
  unfold enumResourceTypes.
  destruct (String.eqb key "id"); [now intros [= <-]|].
  destruct (String.eqb key "club"); [now intros [= <-]|].
  destruct (String.eqb key "public"); [now intros [= <-]|].
  destruct (String.eqb key "app"); [now intros [= <-]|].
  destruct (existsb (String.eqb key) Object_prototype_keys) eqn:E;
    [|discriminate].
  intros [= <-]. split; [reflexivity|].
  apply existsb_exists in E as (k & Hk & E). apply String.eqb_eq in E.
  now subst k.
Qed.

(** X14.  A type that the resolver works out itself is in lower case: when
    one of the three patterns matches the text and the screen-name resolver
    returns a resource whose type is a string, the string holds no
    upper-case letter (the type reported by the collaborator is passed on
    as it is).  The type is no string only on the plain-ID branch, when the
    lowercased prefix names a member that the alias table inherits from
    [Object.prototype]; the type is then that member. *)
Theorem X14_local_type_is_lower_case
    (att own : RegExp OwnerGroups) (res : RegExp PlainGroups)
    (api : ScreenNameLookup) (x : option string) (r : IResolvedResource) :
  test att (ToString x) || test own (ToString x) || test res (ToString x)
    = true ->
  resolveScreenName att own res api x = Return r ->
  match type r with
  | TypeString t => no_upper_case t = true
  | TypeInherited name =>
      In name Object_prototype_keys /\
      no_upper_case name = true /\
      test att (ToString x) = false /\ test own (ToString x) = false
  end.
Proof.
  assert (forall pattern,
            resolveOwnerResource x pattern = Return r ->
            match type r with
            | TypeString t => no_upper_case t = true
            | TypeInherited name =>
                In name Object_prototype_keys /\
                no_upper_case name = true /\
                test att (ToString x) = false /\
                test own (ToString x) = false
            end) as Hown.
  { intros pattern. unfold resolveOwnerResource.
    destruct x as [s|]; [|discriminate].
    destruct (pattern s) as [[[t o] i]|]; [|discriminate].
    intros [= <-]. simpl.
    apply replace_removeSearchParam_forall, toLowerCase_no_upper_case. }
  unfold resolveScreenName.
  destruct (test att _); [intros _; apply Hown|].
  destruct (test own _); [intros _; apply Hown|].
  destruct (test res _); [intros _|discriminate].
  destruct x as [s|]; [|discriminate].
  destruct (res s) as [[p d]|]; [|discriminate].
  intros [= <-]. simpl.
  destruct (enumResourceTypes (toLowerCase p)) as [v|] eqn:E.
  - apply enumResourceTypes_value in E. destruct v as [t|name]; [exact E|].
    destruct E as [-> Hin]. repeat split; try assumption.
    apply toLowerCase_no_upper_case.
  - apply toLowerCase_no_upper_case.
Qed.

Lemma X14_local_type_is_lower_case_witness :
  test Helpers.parseAttachmentRe (ToString (Some "PHOTO-1_2"))
  || test Helpers.parseOwnerResourceRe (ToString (Some "PHOTO-1_2"))
  || test Helpers.parseResourceRe (ToString (Some "PHOTO-1_2")) = true /\
  resolveScreenName_with_helpers api_no_match (Some "PHOTO-1_2")
    = Return {| id := 2; ownerId := Some (-1); type := "photo" |} /\
  no_upper_case "photo" = true.
Proof.
  assert (test Helpers.parseAttachmentRe (ToString (Some "PHOTO-1_2"))
          || test Helpers.parseOwnerResourceRe (ToString (Some "PHOTO-1_2"))
          || test Helpers.parseResourceRe (ToString (Some "PHOTO-1_2"))
          = true) as H1 by reflexivity.
  assert (resolveScreenName_with_helpers api_no_match (Some "PHOTO-1_2")
          = Return {| id := 2; ownerId := Some (-1); type := "photo" |})
    as H2 by reflexivity.
  split; [exact H1|]. split; [exact H2|].
  exact (X14_local_type_is_lower_case Helpers.parseAttachmentRe
           Helpers.parseOwnerResourceRe Helpers.parseResourceRe
           api_no_match (Some "PHOTO-1_2") _ H1 H2).
Defined.

Lemma toLowerCase_app a b :
  toLowerCase (a ++ b) = toLowerCase a ++ toLowerCase b.
Proof. induction a as [|c r IH]; simpl; [reflexivity|]. now rewrite IH. Qed.

Lemma lower_char_marks c :
  not_equals (lower_char c) = not_equals c /\
  Ascii.eqb (lower_char c) "?" = Ascii.eqb c "?" /\
  Ascii.eqb (lower_char c) "&" = Ascii.eqb c "&".
Proof. ascii_cases c; repeat split. Qed.

Lemma toLowerCase_not_equals s :
  forall_chars not_equals (toLowerCase s) = forall_chars not_equals s.
Proof.
  induction s as [|c r IH]; simpl; [reflexivity|].
  now rewrite IH, (proj1 (lower_char_marks c)).
Qed.

Lemma replace_removeSearchParam_id s :
  forall_chars not_separator s = true -> replace_removeSearchParam s = s.
Proof.
  induction s as [|c r IH]; [reflexivity|].
  simpl forall_chars. intros [Hc Hr]%andb_true_iff.
  rewrite replace_removeSearchParam_cons.
  unfold removeSearchParam_at. unfold not_separator in Hc.
  apply negb_true_iff in Hc. rewrite Hc. now rewrite (IH Hr).
Qed.

Lemma replace_removeSearchParam_key sep key rest :
  Ascii.eqb sep "?" || Ascii.eqb sep "&" = true ->
  key <> "" -> forall_chars not_equals key = true ->
  replace_removeSearchParam (String sep (key ++ String "=" rest)) = rest.
Proof.
  intros Hsep Hkey Hne. rewrite replace_removeSearchParam_cons.
  unfold removeSearchParam_at. rewrite Hsep.
  rewrite (span_run not_equals key "=" rest Hne eq_refl).
  destruct key; [contradiction|reflexivity].
Qed.

(** X15.  What [removeSearchParam] does to the captured type: a type that
    holds neither [?] nor [&] is only put in lower case, and a type that
    starts with a leaked search parameter, [?key=] or [&key=], loses it,
    so that the tag alone, in lower case, is the type of the resource. *)
Theorem X15_search_parameter_is_removed
    (pattern : RegExp OwnerGroups) (s captured owner item : string)
    (sep : ascii) (key tag : string) :
  pattern s = Some (captured, owner, item) ->
  (forall_chars not_separator captured = true ->
   resolveOwnerResource (Some s) pattern
     = Return {| id := Number item;
                 ownerId := Some (Number owner);
                 type := toLowerCase captured |}) /\
  (captured = String sep (key ++ String "=" tag) ->
   Ascii.eqb sep "?" || Ascii.eqb sep "&" = true ->
   key <> "" -> forall_chars not_equals key = true ->
   resolveOwnerResource (Some s) pattern
     = Return {| id := Number item;
                 ownerId := Some (Number owner);
                 type := toLowerCase tag |}).
Proof.
  intros Hp. unfold resolveOwnerResource. rewrite Hp. split.
  - intros Hc. rewrite replace_removeSearchParam_id; [reflexivity|].
    clear - Hc. induction captured as [|c r IH]; [reflexivity|].
    simpl in Hc |- *. apply andb_true_iff in Hc as [Hc Hr].
    rewrite (IH Hr), andb_true_r. unfold not_separator in Hc |- *.
    destruct (lower_char_marks c) as (_ & -> & ->). exact Hc.
  - intros -> Hsep Hkey Hne. simpl toLowerCase.
    rewrite toLowerCase_app. simpl toLowerCase.
    change (String (lower_char "=") (toLowerCase tag))
      with (String "=" (toLowerCase tag)).
    rewrite replace_removeSearchParam_key; [reflexivity| | |].
    + destruct (lower_char_marks sep) as (_ & -> & ->). exact Hsep.
    + destruct key; [contradiction|discriminate].
    + now rewrite toLowerCase_not_equals.
Qed.

Lemma X15_search_parameter_is_removed_witness :
  resolveOwnerResource (Some "x")
      (fun _ => Some ("?Z=Photo", "-1", "2"))
    = Return {| id := Number "2";
                ownerId := Some (Number "-1");
                type := toLowerCase "Photo" |}.
Proof.
  apply (X15_search_parameter_is_removed
           (fun _ => Some ("?Z=Photo", "-1", "2")) "x" "?Z=Photo" "-1" "2"
           "?" "Z" "Photo" eq_refl);
    [reflexivity|reflexivity|discriminate|reflexivity].
Defined.

(** ** Identifiers in canonical form *)

Lemma parseResourceRe_prefixed (prefix : string) (n : Z) :
  prefix <> "" -> forall_chars is_alpha prefix = true -> 0 <= n ->
  Helpers.parseResourceRe (prefix ++ Number_toString n)
    = Some (prefix, Number_toString n).
Proof.
  intros Hne Hp Hn. pose proof (Number_toString_digits n Hn) as Hd.
  destruct (digits1_head _ Hd) as (c & r & E & Hc).
  unfold Helpers.parseResourceRe. rewrite E.
  rewrite (span_run is_alpha prefix c r Hp).
  - rewrite <- E, Hd. destruct prefix; [contradiction|reflexivity].
  - destruct (is_alpha c) eqn:Ha; [|reflexivity].
    now rewrite (alpha_not_digit c Ha) in Hc.
Qed.

Lemma resolveScreenName_with_helpers_plain_id
    (api : ScreenNameLookup) (s prefix ds : string) :
  Helpers.parseResourceRe s = Some (prefix, ds) ->
  resolveScreenName_with_helpers api (Some s)
    = Return {| id := Number ds;
                ownerId := None;
                type := match enumResourceTypes (toLowerCase prefix) with
                        | Some t => t
                        | None => toLowerCase prefix
                        end |}.
Proof.
  intros H. pose proof (parseResourceRe_plain _ _ _ H) as Hplain.
  apply resolveScreenName_plain_id;
    [now apply parseAttachmentRe_plain
    |now apply parseOwnerResourceRe_plain
    |exact H].
Qed.

(** X16.  With the plain-ID pattern of the spec, identifiers in canonical
    form come back: a prefix of letters followed by the digits of a
    non-negative safe integer [n] resolves to the identifier [n] with the
    type that the alias table gives for the lowercased prefix (the
    inherited member for an inherited key such as [constructor], the
    lowercased prefix itself for a key the table lacks), and a non-zero
    safe integer [m] resolves to its absolute value, as a [group] when it
    is negative and as a [user] when it is positive, without a word from
    the collaborator. *)
Theorem X16_canonical_forms_round_trip
    (api : ScreenNameLookup) (url : URLConstructor)
    (prefix : string) (n m : Z) :
  prefix <> "" -> forall_chars is_alpha prefix = true ->
  0 <= n -> safe_integer n -> m <> 0 -> safe_integer m ->
  resolve_with_helpers api url (RawString (prefix ++ Number_toString n))
    = Return {| id := n;
                ownerId := None;
                type := match enumResourceTypes (toLowerCase prefix) with
                        | Some t => t
                        | None => toLowerCase prefix
                        end |} /\
  resolve_with_helpers api url (RawNumber m)
    = Return {| id := Z.abs m;
                ownerId := None;
                type := if m <? 0 then "group" else "user" |}.
Proof.
  intros Hne Hp Hn Hsn Hm Hsm. split.
  - pose proof (parseResourceRe_prefixed prefix n Hne Hp Hn) as H.
    pose proof (parseResourceRe_plain _ _ _ H) as Hplain.
    unfold resolve_with_helpers.
    destruct prefix as [|c r]; [contradiction|].
    simpl in Hp. apply andb_true_iff in Hp as [Hc _].
    change (String c r ++ Number_toString n)
      with (String c (r ++ Number_toString n)) in *.
    rewrite (resolve_plain _ _ _ api url c _ Hc Hplain).
    fold (resolveScreenName_with_helpers api).
    rewrite (resolveScreenName_with_helpers_plain_id api _ _ _ H).
    now rewrite Number_toString_roundtrip.
  - unfold resolve_with_helpers.
    rewrite (resolve_RawNumber _ _ _ api url m Hm Hsm).
    rewrite resolveNumber_screen_name.
    fold (resolveScreenName_with_helpers api).
    assert (0 <= Z.abs m) as Ha by apply Z.abs_nonneg.
    destruct (m <? 0).
    + rewrite (resolveScreenName_with_helpers_plain_id api _ "club"
                 (Number_toString (Z.abs m))).
      * now rewrite Number_toString_roundtrip.
      * now apply (parseResourceRe_prefixed "club").
    + rewrite (resolveScreenName_with_helpers_plain_id api _ "id"
                 (Number_toString (Z.abs m))).
      * now rewrite Number_toString_roundtrip.
      * now apply (parseResourceRe_prefixed "id").
Qed.

Lemma X16_canonical_forms_round_trip_witness :
  "public" <> "" /\ forall_chars is_alpha "public" = true /\
  0 <= 15 /\ safe_integer 15 /\ (-7) <> 0 /\ safe_integer (-7) /\
  resolve_with_helpers api_no_match WhatwgURL.parse (RawNumber (-7))
    = Return {| id := Z.abs (-7);
                ownerId := None;
                type := if (-7) <? 0 then "group" else "user" |}.
Proof.
  assert ("public" <> "") as H1 by discriminate.
  assert (forall_chars is_alpha "public" = true) as H2 by reflexivity.
  assert (0 <= 15) as H3 by lia.
  assert (safe_integer 15) as H3s by (vm_compute; discriminate).
  assert ((-7) <> 0) as H4 by lia.
  assert (safe_integer (-7)) as H4s by (vm_compute; discriminate).
  split; [exact H1|]. split; [exact H2|]. split; [exact H3|].
  split; [exact H3s|]. split; [exact H4|]. split; [exact H4s|].
  exact (proj2 (X16_canonical_forms_round_trip api_no_match WhatwgURL.parse
                  "public" 15 (-7) H1 H2 H3 H3s H4 H4s)).
Defined.

(** ** A sigil inside a bracket mention *)

Lemma exists_char_app p a b :
  exists_char p (a ++ b) = exists_char p a || exists_char p b.
Proof.
  induction a as [|c r IH]; simpl; [reflexivity|].
  rewrite IH. apply orb_assoc.
Qed.

(** X17.  The sigil test comes first in the mention resolver: a bracket
    mention [[a|b]] that holds a sigil, in [a] or in the label [b], is not
    read as a bracket mention; it loses its opening bracket and the rest,
    pipe, label and closing bracket included, is resolved as a screen
    name. *)
Theorem X17_sigil_in_bracket_mention
    (att own : RegExp OwnerGroups) (res : RegExp PlainGroups)
    (api : ScreenNameLookup) (url : URLConstructor) (a b : string) :
  isUserMentionRe a || isUserMentionRe b = true ->
  resolve att own res api url (RawString ("[" ++ a ++ "|" ++ b ++ "]"))
    = resolveScreenName att own res api (Some (a ++ "|" ++ b ++ "]")).
Proof.
  intros H.
  assert (isUserMentionRe ("[" ++ a ++ "|" ++ b ++ "]") = true) as Hm.
  { unfold isUserMentionRe in *.
    change ("[" ++ a ++ "|" ++ b ++ "]")
      with (String "[" (a ++ String "|" (b ++ "]"))).
    simpl exists_char. rewrite exists_char_app. simpl exists_char.
    rewrite exists_char_app. simpl.
    apply orb_true_iff in H as [->| ->]; [reflexivity|].
    rewrite orb_true_l. apply orb_true_r. }
  unfold resolve, String_of_raw. rewrite trim_bracket.
  change (falsy (RawString ("[" ++ a ++ "|" ++ b ++ "]"))) with false.
  cbv iota zeta.
  assert (numberRe ("[" ++ a ++ "|" ++ b ++ "]") = false) as ->.
  { destruct (numberRe _) eqn:E; [|reflexivity].
    apply numberRe_head in E as [E|E]; discriminate E. }
  rewrite Hm. simpl orb. cbv iota.
  unfold resolveMention. rewrite Hm. reflexivity.
Qed.

Lemma X17_sigil_in_bracket_mention_witness :
  isUserMentionRe "id1" || isUserMentionRe "@durov" = true /\
  resolve_with_helpers api_no_match WhatwgURL.parse
      (RawString ("[" ++ "id1" ++ "|" ++ "@durov" ++ "]"))
    = resolveScreenName_with_helpers api_no_match
        (Some ("id1" ++ "|" ++ "@durov" ++ "]")).
Proof.
  assert (isUserMentionRe "id1" || isUserMentionRe "@durov" = true) as H
    by reflexivity.
  split; [exact H|].
  exact (X17_sigil_in_bracket_mention Helpers.parseAttachmentRe
           Helpers.parseOwnerResourceRe Helpers.parseResourceRe
           api_no_match WhatwgURL.parse "id1" "@durov" H).
Defined.
